(** * The notebook output area widget (src/outputarea/widget.ts)

    A shallow embedding of the [OutputArea] widget, its content factory and
    the [Stdin] and [Gutter] widgets, followed by the properties proved of
    them.

    Conventions.
    - Objects that are shared and mutated through a reference (output areas,
      output-area models, promises, timers) live in a heap, the [World]; a
      reference is an index into the heap.  Methods that reach such objects
      run in the monad [M], which threads the world and a thrown exception.
    - Child widgets are values: a widget is its class list, its text, its
      own children and the state of its implementation.
    - The widget toolkit (phosphor), the DOM, the kernel client and the
      output-area model are not part of the file under study.  The toolkit
      and the DOM are modelled by the few operations the code calls
      ([addClass], [insertWidget], [dispose], [replaceChild], ...); the
      model is an interface, [IOutputAreaModel]; the renderer is a function
      carried by the [RenderMime] record.
    - Pixel coordinates and indices are integers. *)

From Stdlib Require Import ZArith String List Lia.
From stdpp Require Import base option list strings pretty.

Set Warnings "-register-all".

(** ** Constants (widget.ts, lines 45-133) *)

Definition DRAG_THRESHOLD : Z := 5.
Definition FACTORY_MIME : string := "application/vnd.phosphor.widget-factory".
Definition OUTPUT_AREA_CLASS : string := "jp-OutputArea".
Definition MIRRORED_OUTPUT_AREA_CLASS : string := "jp-MirroredOutputArea".
Definition CHILD_CLASS : string := "jp-OutputArea-child".
Definition GUTTER_CLASS : string := "jp-Output-gutter".
Definition OUTPUT_CLASS : string := "jp-OutputArea-output".
Definition STDIN_CLASS : string := "jp-OutputArea-stdin".
Definition EXECUTE_CLASS : string := "jp-Output-executeResult".
Definition DISPLAY_CLASS : string := "jp-Output-displayData".
Definition STDOUT_CLASS : string := "jp-Output-stdout".
Definition STDERR_CLASS : string := "jp-Output-stderr".
Definition ERROR_CLASS : string := "jp-Output-error".
Definition STDIN_GUTTER_CLASS : string := "jp-Stdin-stdinPrompt".
Definition STDIN_INPUT_CLASS : string := "jp-Stdin-stdinInput".
Definition STDIN_RENDERED_CLASS : string := "jp-Stdin-stdinRendered".
Definition FIXED_HEIGHT_CLASS : string := "jp-mod-fixedHeight".
Definition COLLAPSED_CLASS : string := "jp-mod-collapsed".

(** ** Exceptions and results *)

Inductive Error : Type :=
| TypeError       (* a property read or a call on [undefined] or [null] *)
| NotFoundError.  (* the DOMException of [replaceChild] *)

Inductive Result (A : Type) : Type :=
| Ok (a : A)
| Throw (e : Error).
Arguments Ok {A} a.
Arguments Throw {A} e.

(** ** DOM strings

    Text typed by the user is a sequence of UTF-16 code units; [length] is
    the [length] property of the JavaScript string. *)

Definition DOMString : Type := list N.

(** The character U+00B7 (middle dot). *)
Definition MIDDLE_DOT : DOMString := [183%N].

(** [Array(n).join(sep)]: an array of [n] holes; a hole prints as the empty
    string, so the result is [sep] written between the holes, [n - 1]
    times. *)
Fixpoint Array_join (n : nat) (sep : DOMString) : DOMString :=
  match n with
  | 0 => []
  | S n' => match n' with
            | 0 => []
            | S _ => sep ++ Array_join n' sep
            end
  end.

(** ** Class lists (DOMTokenList, through the toolkit's [addClass],
    [removeClass], [toggleClass] and [hasClass]) *)

Module ClassList.
Definition contains (name : string) (cl : list string) : bool :=
  bool_decide (name ∈ cl).
Definition add (name : string) (cl : list string) : list string :=
  if contains name cl then cl else cl ++ [name].
Definition remove (name : string) (cl : list string) : list string :=
  filter (λ c, c ≠ name) cl.
(** [toggleClass(name, force)] with a boolean [force]. *)
Definition toggle (name : string) (force : bool) (cl : list string)
  : list string :=
  if force then add name cl else remove name cl.
End ClassList.

(** ** Strict equality of strings, as [switch] and [===] use it *)

Notation "a === b" := (String.eqb a b) (at level 70, no associativity).

(** ** DOM events *)

Record Event : Type := mkEvent {
  ev_type : string;             (* event.type *)
  keyCode : Z;                  (* KeyboardEvent.keyCode *)
  button : Z;                   (* MouseEvent.button *)
  clientX : Z;                  (* MouseEvent.clientX *)
  clientY : Z;                  (* MouseEvent.clientY *)
  defaultPrevented : bool;      (* set by preventDefault() *)
  propagationStopped : bool     (* set by stopPropagation() *)
}.

Definition preventDefault (e : Event) : Event :=
  mkEvent (ev_type e) (keyCode e) (button e) (clientX e) (clientY e)
          true (propagationStopped e).

Definition stopPropagation (e : Event) : Event :=
  mkEvent (ev_type e) (keyCode e) (button e) (clientX e) (clientY e)
          (defaultPrevented e) true.

(** ** The state of the two widgets with behaviour of their own *)

(** What a drag carries under [FACTORY_MIME]: the thunk
    [() => (this.parent.parent as OutputArea).mirror()]. *)
Inductive FactoryThunk : Type :=
| MirrorOfParentArea.

Record Drag : Type := mkDrag {
  mimeData : list (string * FactoryThunk);
  supportedActions : string;
  proposedAction : string;
  startedAt : option (Z * Z)    (* the arguments of [start], once called *)
}.

(** [OutputArea.Gutter] (lines 686-823). *)
Record Gutter : Type := mkGutter {
  _drag : option Drag;              (* null or the drag in progress *)
  _dragData : option (Z * Z);       (* null or { pressX, pressY } *)
  nodeListensMousedown : bool;      (* node 'mousedown' listener *)
  documentListensMouseup : bool;    (* document 'mouseup' capture listener *)
  documentListensMousemove : bool   (* document 'mousemove' capture listener *)
}.

(** The child nodes of a [Stdin] widget's node. *)
Inductive Node : Type :=
| Span (className : string) (text : DOMString)
| Input (className : string).

Global Instance Node_eq_dec : EqDecision Node.
Proof. solve_decision. Defined.

(** [OutputArea.Stdin] (lines 610-680).  [input_value] and [input_type] are
    the [value] and [type] of the element [this._input] refers to. *)
Record Stdin : Type := mkStdin {
  childNodes : list Node;       (* this.node.childNodes *)
  _input : Node;                (* this._input *)
  input_value : DOMString;      (* this._input.value *)
  input_type : string;          (* this._input.type *)
  inputListensKeydown : bool;   (* the input's 'keydown' listener *)
  _kernel : nat                 (* this._kernel, a kernel reference *)
}.

(** ** Widgets *)

Inductive Impl : Type :=
| PlainWidget
| PanelWidget
| GutterWidget (g : Gutter)
| StdinWidget (s : Stdin).

Inductive Widget : Type := mkWidget {
  classList : list string;      (* node.classList *)
  text : string;                (* node.textContent, for a gutter *)
  children : list Widget;       (* the widgets of a panel's layout *)
  impl : Impl
}.

(** [new Widget()], [new Panel()]. *)
Definition new_Widget : Widget := mkWidget [] "" [] PlainWidget.
Definition new_Panel : Widget := mkWidget [] "" [] PanelWidget.

Definition hasClass (name : string) (w : Widget) : bool :=
  ClassList.contains name (classList w).

Definition addClass (name : string) (w : Widget) : Widget :=
  mkWidget (ClassList.add name (classList w)) (text w) (children w) (impl w).

(** The [text] setter of a gutter. *)
Definition set_text (value : string) (w : Widget) : Widget :=
  mkWidget (classList w) value (children w) (impl w).

(** [panel.addWidget(w)]: append to the panel's layout. *)
Definition Panel_addWidget (w : Widget) (panel : Widget) : Widget :=
  mkWidget (classList panel) (text panel) (children panel ++ [w]) (impl panel).

(** [PanelLayout.insertWidget(index, w)] for a widget that is not yet in the
    layout: the index is clamped to the length of the list. *)
Definition insertWidget (index : nat) (w : Widget) (ws : list Widget)
  : list Widget :=
  let j := index `min` length ws in
  take j ws ++ w :: drop j ws.

(** ** Outputs, messages and change notifications *)

(** An output as this module reads it ([nbformat.IOutput], the element type
    [OutputModel.IModel] of the model): the fields [createOutput] looks at
    and the MIME bundle handed to the renderer. *)
Record IOutput : Type := mkOutput {
  output_type : string;
  execution_count : option Z;           (* number | null *)
  name : string;                        (* the stream name *)
  data : list (string * string)         (* MIME type, payload *)
}.

(** The content of a kernel message, before it is given an [output_type]. *)
Record Content : Type := mkContent {
  c_execution_count : option Z;
  c_name : string;
  c_data : list (string * string);
  c_wait : bool;                        (* IClearOutputMsg.content.wait *)
  c_prompt : DOMString;                 (* IInputRequestMsg.content.prompt *)
  c_password : bool;                    (* IInputRequestMsg.content.password *)
  c_payload : list (string * list (string * string))
                                        (* IExecuteOkReply.content.payload:
                                           the source and data of each *)
}.

Record Message : Type := mkMessage {
  msg_type : string;                    (* msg.header.msg_type *)
  content : Content
}.

(** [let output = msg.content as nbformat.IOutput;
     output.output_type = msgType]. *)
Definition with_output_type (msgType : string) (c : Content) : IOutput :=
  mkOutput msgType (c_execution_count c) (c_name c) (c_data c).

(** [ObservableVector.IChangedArgs<OutputModel.IModel>]. *)
Record IChangedArgs : Type := mkChangedArgs {
  chg_type : string;                    (* 'add' | 'remove' | 'set' | ... *)
  oldIndex : nat;
  newIndex : nat;
  oldValues : list IOutput;
  newValues : list IOutput
}.

(** The output-area model as this module uses it: [add] and [clear] change
    the model and emit change notifications on its [changed] signal. *)
Class IOutputAreaModel (Model : Type) : Type := {
  model_add : IOutput → Model → Model * list IChangedArgs;
  model_clear : bool → Model → Model * list IChangedArgs
}.

Record IExecuteRequest : Type := mkExecuteRequest {
  code : string;
  stop_on_error : bool
}.

(** ** Effects on the outside world, in the order they happen *)

Inductive Effect : Type :=
| ConsoleWarn (line : string)                       (* console.warn *)
| ConsoleError (e : Error)                          (* console.error *)
| Disposed (w : Widget)                             (* w.dispose() *)
| RequestExecute (kernel : nat) (c : IExecuteRequest)
                                                    (* kernel.requestExecute *)
| SendInputReply (kernel : nat) (value : DOMString).
                                                    (* kernel.sendInputReply *)

(** A computation that writes effects and returns or throws. *)
Definition Eff (A : Type) : Type := list Effect * Result A.

(** ** The renderer and the content factory *)

(** [rendermime.render(model)] yields a widget or nothing.  The argument is
    optional because [args.newValues[0]] of an empty array is [undefined]. *)
Record RenderMime : Type := mkRenderMime {
  render : option IOutput → option Widget
}.

Record IOutputOptions : Type := mkOutputOptions {
  oo_rendermime : RenderMime;
  oo_model : option IOutput;
  oo_gutter : Widget
}.

Record IStdinOptions : Type := mkStdinOptions {
  so_prompt : DOMString;
  so_password : bool;
  so_kernel : nat
}.

(** [OutputArea.IContentFactory].  [createOutput] returns the widget and
    the gutter it was given, whose text it may have set. *)
Record IContentFactory : Type := mkContentFactory {
  createGutter : Widget;
  createOutput : IOutputOptions → Eff (Widget * Widget);
  createStdin : IStdinOptions → Widget
}.

Module Gutter.
(** [new Gutter()]. *)
Definition new : Widget :=
  mkWidget [] "" [] (GutterWidget (mkGutter None None false false false)).

(** [onAfterAttach] and [onBeforeDetach] (lines 726-738). *)
Definition onAfterAttach (this : Gutter) : Gutter :=
  mkGutter (_drag this) (_dragData this) true
           (documentListensMouseup this) (documentListensMousemove this).

Definition onBeforeDetach (this : Gutter) : Gutter :=
  mkGutter (_drag this) (_dragData this) false
           (documentListensMouseup this) (documentListensMousemove this).

(** [_evtMousedown] (lines 743-750). *)
Definition _evtMousedown (this : Gutter) (event : Event) : Gutter :=
  if (button event =? 0)%Z then
    mkGutter (_drag this) (Some (clientX event, clientY event))
             (nodeListensMousedown this) true true
  else this.

(** [_evtMouseup] (lines 755-763). *)
Definition _evtMouseup (this : Gutter) (event : Event) : Gutter * Event :=
  if negb (button event =? 0)%Z || negb (bool_decide (is_Some (_drag this)))
  then
    (mkGutter (_drag this) (_dragData this) (nodeListensMousedown this)
              false false,
     event)
  else (this, stopPropagation (preventDefault event)).

(** [_startDrag] (lines 791-810): the drag is created, given the
    factory under [FACTORY_MIME], the document listeners are removed and
    the drag is started. *)
Definition _startDrag (this : Gutter) (clientX clientY : Z) : Gutter :=
  let drag := mkDrag [] "copy" "copy" None in
  let drag :=
    mkDrag (mimeData drag ++ [(FACTORY_MIME, MirrorOfParentArea)])
           (supportedActions drag) (proposedAction drag) (startedAt drag) in
  let drag :=
    mkDrag (mimeData drag) (supportedActions drag) (proposedAction drag)
           (Some (clientX, clientY)) in
  mkGutter (Some drag) (_dragData this) (nodeListensMousedown this)
           false false.

(** The callback given to [then] in [_startDrag]: the drag is over. *)
Definition dragEnded (this : Gutter) : Gutter :=
  mkGutter None (_dragData this) (nodeListensMousedown this)
           (documentListensMouseup this) (documentListensMousemove this).

(** [_evtMousemove] (lines 768-786). *)
Definition _evtMousemove (this : Gutter) (event : Event)
  : Result (Gutter * Event) :=
  let event := stopPropagation (preventDefault event) in
  match _drag this with
  | Some _ => Ok (this, event)
  | None =>
      match _dragData this with
      | None => Throw TypeError            (* data.pressX of null *)
      | Some (pressX, pressY) =>
          let dx := Z.abs (clientX event - pressX) in
          let dy := Z.abs (clientY event - pressY) in
          if (dx <? DRAG_THRESHOLD)%Z && (dy <? DRAG_THRESHOLD)%Z then
            Ok (this, event)
          else
            Ok (_startDrag this (clientX event) (clientY event), event)
      end
  end.

(** [handleEvent] (lines 707-721). *)
Definition handleEvent (this : Gutter) (event : Event)
  : Result (Gutter * Event) :=
  if ev_type event === "mousedown" then Ok (_evtMousedown this event, event)
  else if ev_type event === "mouseup" then Ok (_evtMouseup this event)
  else if ev_type event === "mousemove" then _evtMousemove this event
  else Ok (this, event).

(** [dispose] (lines 815-819), as far as the gutter's own fields go. *)
Definition dispose (this : Gutter) : Gutter :=
  mkGutter None None (nodeListensMousedown this)
           (documentListensMouseup this) (documentListensMousemove this).
End Gutter.

Module Private.
(** [createInputWidgetNode] (lines 834-843): the child nodes of the
    [div]. *)
Definition createInputWidgetNode : list Node :=
  let prompt := Span STDIN_GUTTER_CLASS [] in
  let input := Input STDIN_INPUT_CLASS in
  [prompt; input].
End Private.

Module Stdin.
(** The constructor (lines 614-623). *)
Definition new (options : IStdinOptions) : Stdin :=
  let node := Private.createInputWidgetNode in
  let node :=
    match node with
    | Span cls _ :: rest => Span cls (so_prompt options) :: rest
    | _ => node
    end in
  let input := default (Input STDIN_INPUT_CLASS) (last node) in
  mkStdin node input []
          (if so_password options then "password" else "text")
          false (so_kernel options).

Definition new_widget (options : IStdinOptions) : Widget :=
  mkWidget [] "" [] (StdinWidget (new options)).

(** [node.replaceChild(newChild, oldChild)]. *)
Fixpoint replaceChild (newChild oldChild : Node) (nodes : list Node)
  : Result (list Node) :=
  match nodes with
  | [] => Throw NotFoundError
  | n :: rest =>
      if decide (n = oldChild) then Ok (newChild :: rest)
      else match replaceChild newChild oldChild rest with
           | Ok rest' => Ok (n :: rest')
           | Throw e => Throw e
           end
  end.

(** [handleEvent] (lines 635-654). *)
Definition handleEvent (this : Stdin) (event : Event)
  : Eff (Stdin * Event) :=
  let input := _input this in
  if ev_type event === "keydown" then
    if (keyCode event =? 13)%Z then
      let sent := SendInputReply (_kernel this) (input_value this) in
      let rendered :=
        Span STDIN_RENDERED_CLASS
             (if input_type this === "password"
              then Array_join (length (input_value this) + 1) MIDDLE_DOT
              else input_value this) in
      match replaceChild rendered input (childNodes this) with
      | Throw e => ([sent], Throw e)
      | Ok nodes =>
          ([sent],
           Ok (mkStdin nodes (_input this) (input_value this)
                       (input_type this) (inputListensKeydown this)
                       (_kernel this),
               stopPropagation event))
      end
    else ([], Ok (this, stopPropagation event))
  else ([], Ok (this, event)).

(** [onAfterAttach] and [onBeforeDetach] (lines 659-676): the widget
    listens to the key presses of its input while it is attached. *)
Definition onAfterAttach (this : Stdin) : Stdin :=
  mkStdin (childNodes this) (_input this) (input_value this)
          (input_type this) true (_kernel this).

Definition onBeforeDetach (this : Stdin) : Stdin :=
  mkStdin (childNodes this) (_input this) (input_value this)
          (input_type this) false (_kernel this).

(** The user types into the input element. *)
Definition type_value (value : DOMString) (this : Stdin) : Stdin :=
  mkStdin (childNodes this) (_input this) value (input_type this)
          (inputListensKeydown this) (_kernel this).
End Stdin.

Module ContentFactory.
(** [createOutput] (lines 555-590). *)
Definition createOutput (options : IOutputOptions) : Eff (Widget * Widget) :=
  match render (oo_rendermime options) (oo_model options) with
  | None =>
      ([ConsoleWarn "Did not find renderer for output mimebundle."],
       Ok (new_Widget, oo_gutter options))
  | Some widget =>
      match oo_model options with
      | None => ([], Throw TypeError)      (* model.output_type *)
      | Some model =>
          if output_type model === "execute_result" then
            let widget := addClass EXECUTE_CLASS widget in
            let count := execution_count model in
            let gutter :=
              set_text ("Out[" +:+ match count with
                                   | None => " "
                                   | Some c => pretty c
                                   end +:+ "]:")
                       (oo_gutter options) in
            ([], Ok (widget, gutter))
          else if output_type model === "display_data" then
            ([], Ok (addClass DISPLAY_CLASS widget, oo_gutter options))
          else if output_type model === "stream" then
            if name model === "stdout" then
              ([], Ok (addClass STDOUT_CLASS widget, oo_gutter options))
            else
              ([], Ok (addClass STDERR_CLASS widget, oo_gutter options))
          else if output_type model === "error" then
            ([], Ok (addClass ERROR_CLASS widget, oo_gutter options))
          else
            ([], Ok (widget, oo_gutter options))
      end
  end.
End ContentFactory.

(** [OutputArea.defaultContentFactory]. *)
Definition defaultContentFactory : IContentFactory :=
  mkContentFactory Gutter.new ContentFactory.createOutput Stdin.new_widget.

(** ** The output area *)

(** [OutputArea.IOptions]. *)
Record IOptions : Type := mkOptions {
  o_rendermime : RenderMime;
  o_model : nat;                                (* a model reference *)
  o_contentFactory : option IContentFactory     (* optional *)
}.

(** The fields of an [OutputArea], with those of the [Widget] it extends
    that this file touches. *)
Record OutputArea : Type := mkOutputArea {
  model : nat;                          (* readonly model, a reference *)
  rendermime : RenderMime;              (* readonly rendermime *)
  contentFactory : IContentFactory;     (* readonly contentFactory *)
  area_classList : list string;         (* node.classList *)
  title_label : string;                 (* title.label *)
  title_closable : bool;                (* title.closable *)
  widgets : list Widget;                (* (layout as PanelLayout).widgets *)
  style_minHeight : string;             (* node.style.minHeight *)
  updateRequested : bool;               (* an 'update-request' is posted *)
  isDisposed : bool;
  _fixedHeight : bool;
  _collapsed : bool;
  _minHeightTimeout : option nat        (* null or a timer id *)
}.

Module Area.
(** The loop of [clear] (lines 243-245) over the live list of children:
      for (let i = 0; i < this.widgets.length; i++)
        this.widgets.at(0).dispose();
    Disposing a child takes it out of its parent's layout, so the list
    read by the next test and the next [at(0)] is the tail. *)
Fixpoint clear_loop (i : nat) (widgets : list Widget) : Eff (list Widget) :=
  if i <? length widgets then
    match widgets with
    | [] => ([], Throw TypeError)            (* at(0) is undefined *)
    | first :: rest =>
        let '(effects, r) := clear_loop (S i) rest in
        (Disposed first :: effects, r)
    end
  else ([], Ok widgets).

(** The loop of [_setOutput] (lines 401-405):
      for (let i = 0; i < index; i++)
        if (widgets.at(i).hasClass(STDIN_CLASS)) index++;
    [from_i] is the list of children from position [i] on, so its head is
    [widgets.at(i)]. *)
Fixpoint skip_stdin (from_i : list Widget) (i index : nat) : Result nat :=
  if i <? index then
    match from_i with
    | [] => Throw TypeError                  (* at(i) is undefined *)
    | w :: rest =>
        skip_stdin rest (S i)
                   (if hasClass STDIN_CLASS w then S index else index)
    end
  else Ok index.

Definition with_classList (cl : list string) (a : OutputArea) :=
  mkOutputArea (model a) (rendermime a) (contentFactory a) cl
    (title_label a) (title_closable a) (widgets a) (style_minHeight a)
    (updateRequested a) (isDisposed a) (_fixedHeight a) (_collapsed a)
    (_minHeightTimeout a).
Definition with_title_label (l : string) (a : OutputArea) :=
  mkOutputArea (model a) (rendermime a) (contentFactory a)
    (area_classList a) l (title_closable a) (widgets a) (style_minHeight a)
    (updateRequested a) (isDisposed a) (_fixedHeight a) (_collapsed a)
    (_minHeightTimeout a).
Definition with_title_closable (c : bool) (a : OutputArea) :=
  mkOutputArea (model a) (rendermime a) (contentFactory a)
    (area_classList a) (title_label a) c (widgets a) (style_minHeight a)
    (updateRequested a) (isDisposed a) (_fixedHeight a) (_collapsed a)
    (_minHeightTimeout a).
Definition with_widgets (ws : list Widget) (a : OutputArea) :=
  mkOutputArea (model a) (rendermime a) (contentFactory a)
    (area_classList a) (title_label a) (title_closable a) ws
    (style_minHeight a) (updateRequested a) (isDisposed a)
    (_fixedHeight a) (_collapsed a) (_minHeightTimeout a).
Definition with_minHeight (h : string) (a : OutputArea) :=
  mkOutputArea (model a) (rendermime a) (contentFactory a)
    (area_classList a) (title_label a) (title_closable a) (widgets a) h
    (updateRequested a) (isDisposed a) (_fixedHeight a) (_collapsed a)
    (_minHeightTimeout a).
Definition with_updateRequested (u : bool) (a : OutputArea) :=
  mkOutputArea (model a) (rendermime a) (contentFactory a)
    (area_classList a) (title_label a) (title_closable a) (widgets a)
    (style_minHeight a) u (isDisposed a) (_fixedHeight a) (_collapsed a)
    (_minHeightTimeout a).
Definition with_fixedHeight (v : bool) (a : OutputArea) :=
  mkOutputArea (model a) (rendermime a) (contentFactory a)
    (area_classList a) (title_label a) (title_closable a) (widgets a)
    (style_minHeight a) (updateRequested a) (isDisposed a) v (_collapsed a)
    (_minHeightTimeout a).
Definition with_collapsed (v : bool) (a : OutputArea) :=
  mkOutputArea (model a) (rendermime a) (contentFactory a)
    (area_classList a) (title_label a) (title_closable a) (widgets a)
    (style_minHeight a) (updateRequested a) (isDisposed a)
    (_fixedHeight a) v (_minHeightTimeout a).
Definition with_minHeightTimeout (t : option nat) (a : OutputArea) :=
  mkOutputArea (model a) (rendermime a) (contentFactory a)
    (area_classList a) (title_label a) (title_closable a) (widgets a)
    (style_minHeight a) (updateRequested a) (isDisposed a)
    (_fixedHeight a) (_collapsed a) t.

(** The toolkit's class methods on the area's own node. *)
Definition hasClass (name : string) (a : OutputArea) : bool :=
  ClassList.contains name (area_classList a).
Definition addClass (name : string) (a : OutputArea) : OutputArea :=
  with_classList (ClassList.add name (area_classList a)) a.
Definition toggleClass (name : string) (force : bool) (a : OutputArea)
  : OutputArea :=
  with_classList (ClassList.toggle name force (area_classList a)) a.

(** [update()]: post an 'update-request' message to the widget. *)
Definition update (a : OutputArea) : OutputArea :=
  with_updateRequested true a.

(** The [collapsed] accessors (lines 201-210). *)
Definition collapsed (this : OutputArea) : bool := _collapsed this.
Definition set_collapsed (value : bool) (this : OutputArea) : OutputArea :=
  if bool_decide (_collapsed this = value) then this
  else update (with_collapsed value this).

(** The [fixedHeight] accessors (lines 215-224). *)
Definition fixedHeight (this : OutputArea) : bool := _fixedHeight this.
Definition set_fixedHeight (value : bool) (this : OutputArea) : OutputArea :=
  if bool_decide (_fixedHeight this = value) then this
  else update (with_fixedHeight value this).

(** [onUpdateRequest] (lines 300-303). *)
Definition onUpdateRequest (this : OutputArea) : OutputArea :=
  let this := toggleClass COLLAPSED_CLASS (collapsed this) this in
  toggleClass FIXED_HEIGHT_CLASS (fixedHeight this) this.

(** The message loop delivers a posted 'update-request': the request is
    taken off the queue and [onUpdateRequest] runs. *)
Definition deliverUpdateRequest (this : OutputArea) : OutputArea :=
  if updateRequested this
  then onUpdateRequest (with_updateRequested false this)
  else this.
End Area.



(** ** The monad of methods: a world threaded through, and exceptions *)

Definition StateErr (S A : Type) : Type := S → Result A * S.

Global Instance StateErr_ret {S : Type} : MRet (StateErr S) :=
  λ A a s, (Ok a, s).

Global Instance StateErr_bind {S : Type} : MBind (StateErr S) :=
  λ A B f m s,
    match m s with
    | (Ok a, s') => f a s'
    | (Throw e, s') => (Throw e, s')
    end.

Definition throw {S A : Type} (e : Error) : StateErr S A :=
  λ s, (Throw e, s).

(** [try { m } catch (err) { handler(err) }]. *)
Definition try_catch {S : Type} (m : StateErr S unit)
    (handler : Error → StateErr S unit) : StateErr S unit :=
  λ s,
    match m s with
    | (Ok _, s') => (Ok (), s')
    | (Throw e, s') => handler e s'
    end.

(** [for (x of l) f(x)]. *)
Fixpoint for_each {S A : Type} (f : A → StateErr S unit) (l : list A)
  : StateErr S unit :=
  match l with
  | [] => mret ()
  | x :: rest => f x;; for_each f rest
  end.

(** The handlers [execute] installs on the future of a request: closures
    over the output area, the kernel and the promise's [resolve]. *)
Record Future : Type := mkFuture {
  f_this : nat;
  f_kernel : nat;
  f_promise : nat
}.

(** The browser's layout: the text of [getBoundingClientRect().height] for
    the node of an output area. *)
Class Layout : Type := {
  rect_height : OutputArea → string
}.

Section OutputAreaMethods.

Context {Model : Type} `{!IOutputAreaModel Model} `{!Layout}.

(** The heap.  A model, an output area or a promise is referred to by its
    index; a timer by its index plus one (timer ids are positive). *)
Record World : Type := mkWorld {
  models : list Model;                  (* the output-area models *)
  areas : list OutputArea;              (* the output areas *)
  connections : list (nat * nat);       (* model.changed.connect(
                                             area._onModelChanged, area) *)
  promises : list (option Message);     (* pending, or resolved with *)
  futures : list Future;                (* the kernel's pending requests *)
  timeouts : list (option nat);         (* the area whose timer callback is
                                           pending, or cleared *)
  trace : list Effect                   (* what has happened outside *)
}.

Definition M : Type → Type := StateErr World.

Definition set_models (x : list Model) (w : World) : World :=
  mkWorld x (areas w) (connections w) (promises w) (futures w) (timeouts w)
          (trace w).
Definition set_areas (x : list OutputArea) (w : World) : World :=
  mkWorld (models w) x (connections w) (promises w) (futures w) (timeouts w)
          (trace w).
Definition set_connections (x : list (nat * nat)) (w : World) : World :=
  mkWorld (models w) (areas w) x (promises w) (futures w) (timeouts w)
          (trace w).
Definition set_promises (x : list (option Message)) (w : World) : World :=
  mkWorld (models w) (areas w) (connections w) x (futures w) (timeouts w)
          (trace w).
Definition set_futures (x : list Future) (w : World) : World :=
  mkWorld (models w) (areas w) (connections w) (promises w) x (timeouts w)
          (trace w).
Definition set_timeouts (x : list (option nat)) (w : World) : World :=
  mkWorld (models w) (areas w) (connections w) (promises w) (futures w) x
          (trace w).
Definition set_trace (x : list Effect) (w : World) : World :=
  mkWorld (models w) (areas w) (connections w) (promises w) (futures w)
          (timeouts w) x.

(** Reading and writing an object through its reference.  A reference the
    code holds is never dangling; the model answers a dangling one with a
    [TypeError]. *)
Definition getArea (this : nat) : M OutputArea :=
  λ w, match areas w !! this with
       | Some a => (Ok a, w)
       | None => (Throw TypeError, w)
       end.

Definition setArea (this : nat) (a : OutputArea) : M unit :=
  λ w, (Ok (), set_areas (<[this := a]> (areas w)) w).

Definition modifyArea (this : nat) (f : OutputArea → OutputArea) : M unit :=
  a ← getArea this; setArea this (f a).

Definition perform (effects : list Effect) : M unit :=
  λ w, (Ok (), set_trace (trace w ++ effects) w).

Definition liftResult {A : Type} (r : Result A) : M A :=
  match r with
  | Ok a => mret a
  | Throw e => throw e
  end.

Definition liftEff {A : Type} (c : Eff A) : M A :=
  perform (fst c);; liftResult (snd c).

(** [setTimeout(callback, 50)] for the callback of [clear], and
    [clearTimeout(id)]. *)
Definition setTimeout (this : nat) : M nat :=
  λ w, (Ok (S (length (timeouts w))),
        set_timeouts (timeouts w ++ [Some this]) w).

Definition clearTimeout (id : nat) : M unit :=
  λ w, (Ok (), set_timeouts (<[pred id := None]> (timeouts w)) w).

(** The constructor (lines 150-160). *)
Definition new_OutputArea (options : IOptions) : M nat :=
  λ w,
    let this := length (areas w) in
    let model := o_model options in
    let a :=
      mkOutputArea model (o_rendermime options)
        (default defaultContentFactory (o_contentFactory options))
        [OUTPUT_AREA_CLASS] "" false [] "" false false false false None in
    (Ok this,
     set_connections (connections w ++ [(model, this)])
       (set_areas (areas w ++ [a]) w)).

(** [mirror] (lines 165-174). *)
Definition mirror (this : nat) : M nat :=
  a ← getArea this;
  let rendermime := rendermime a in
  let contentFactory := contentFactory a in
  let model := model a in
  widget ← new_OutputArea (mkOptions rendermime model (Some contentFactory));
  modifyArea widget (Area.with_title_label "Mirrored Output");;
  modifyArea widget (Area.with_title_closable true);;
  modifyArea widget (Area.addClass MIRRORED_OUTPUT_AREA_CLASS);;
  mret widget.

(** The callback [clear] hands to [setTimeout] (lines 257-262). *)
Definition minHeightTimeout_fired (this : nat) : M unit :=
  a ← getArea this;
  if isDisposed a then mret ()
  else setArea this (Area.with_minHeight "" a).

(** [clear] (lines 236-263). *)
Definition clear (this : nat) : M unit :=
  a ← getArea this;
  if length (widgets a) =? 0 then mret ()
  else
    remaining ← liftEff (Area.clear_loop 0 (widgets a));
    modifyArea this (Area.with_widgets remaining);;
    a ← getArea this;
    let rect := rect_height a in
    modifyArea this (Area.with_minHeight (rect +:+ "px"));;
    match _minHeightTimeout a with
    | Some id => if 0 <? id then clearTimeout id else mret ()
    | None => mret ()
    end;;
    id ← setTimeout this;
    modifyArea this (Area.with_minHeightTimeout (Some id)).

(** [_onInputRequest] (lines 358-374). *)
Definition _onInputRequest (this : nat) (msg : Message) (kernel : nat)
  : M unit :=
  a ← getArea this;
  let factory := contentFactory a in
  let prompt := c_prompt (content msg) in
  let password := c_password (content msg) in
  let panel := new_Panel in
  let gutter := createGutter factory in
  let gutter := addClass GUTTER_CLASS gutter in
  let panel := Panel_addWidget gutter panel in
  let input := createStdin factory (mkStdinOptions prompt password kernel) in
  let input := addClass STDIN_CLASS input in
  let panel := Panel_addWidget input panel in
  let panel := addClass CHILD_CLASS panel in
  let panel := addClass STDIN_CLASS panel in
  modifyArea this (λ a, Area.with_widgets (widgets a ++ [panel]) a).

(** The panel [_insertOutput] builds around a rendered result. *)
Definition output_panel (result : Widget) : Widget :=
  let panel := new_Panel in
  let result := addClass OUTPUT_CLASS result in
  let panel := Panel_addWidget result panel in
  let panel := addClass CHILD_CLASS panel in
  addClass OUTPUT_CLASS panel.

(** [_insertOutput] (lines 379-392). *)
Definition _insertOutput (this : nat) (index : nat) (model : option IOutput)
  : M unit :=
  a ← getArea this;
  let rendermime := rendermime a in
  let factory := contentFactory a in
  let gutter := createGutter factory in
  let gutter := addClass GUTTER_CLASS gutter in
  '(result, _) ← liftEff (createOutput factory
                            (mkOutputOptions rendermime model gutter));
  let panel := output_panel result in
  modifyArea this (λ a, Area.with_widgets
                          (insertWidget index panel (widgets a)) a).

(** [layout.widgets.at(index).dispose()]: the child leaves the layout. *)
Definition dispose_child (this : nat) (index : nat) : M unit :=
  a ← getArea this;
  match widgets a !! index with
  | None => throw TypeError                  (* at(index) is undefined *)
  | Some child =>
      perform [Disposed child];;
      setArea this (Area.with_widgets (delete index (widgets a)) a)
  end.

(** [_setOutput] (lines 397-408). *)
Definition _setOutput (this : nat) (index : nat) (model : option IOutput)
  : M unit :=
  a ← getArea this;
  let widgets := widgets a in
  (* Skip any stdin widgets to find the correct index. *)
  index ← liftResult (Area.skip_stdin widgets 0 index);
  dispose_child this index;;
  _insertOutput this index model.

(** [_onModelChanged] (lines 413-429).  [args.newValues[0]] of an empty
    array is [undefined]. *)
Definition _onModelChanged (this : nat) (sender : nat) (args : IChangedArgs)
  : M unit :=
  if chg_type args === "add" then
    (* Children are always added at the end. *)
    a ← getArea this;
    _insertOutput this (length (widgets a)) (head (newValues args))
  else if chg_type args === "remove" then
    (* Only clear is supported by the model. *)
    clear this
  else if chg_type args === "set" then
    _setOutput this (newIndex args) (head (newValues args))
  else mret ().

(** The signal [model.changed] emits [args]: each slot connected to this
    sender is invoked in turn; the toolkit catches an exception a slot
    throws and logs it. *)
Definition invokeSlot (sender : nat) (args : IChangedArgs)
    (conn : nat * nat) : M unit :=
  if bool_decide (fst conn = sender) then
    try_catch (_onModelChanged (snd conn) sender args)
              (λ err, perform [ConsoleError err])
  else mret ().

Definition emit (sender : nat) (args : IChangedArgs) : M unit :=
  λ w, for_each (invokeSlot sender args) (connections w) w.

(** A call of a method of the model: the model changes, then its change
    notifications are emitted. *)
Definition call_model (m : nat)
    (method : Model → Model * list IChangedArgs) : M unit :=
  λ w,
    match models w !! m with
    | None => (Throw TypeError, w)
    | Some state =>
        let '(state', notifications) := method state in
        for_each (emit m) notifications
                 (set_models (<[m := state']> (models w)) w)
    end.

(** [_onIOPub] (lines 308-327). *)
Definition _onIOPub (this : nat) (msg : Message) : M unit :=
  a ← getArea this;
  let model := model a in
  let msgType := msg_type msg in
  if (msgType === "execute_result") || (msgType === "display_data")
     || (msgType === "stream") || (msgType === "error") then
    let output := with_output_type msgType (content msg) in
    call_model model (model_add output)
  else if msgType === "clear_output" then
    let wait := c_wait (content msg) in
    call_model model (model_clear wait)
  else mret ().

(** [_onExecuteReply] (lines 332-353). *)
Definition _onExecuteReply (this : nat) (msg : Message) : M unit :=
  a ← getArea this;
  let model := model a in
  let payload := c_payload (content msg) in
  if length payload =? 0 then mret ()
  else
    let pages := filter (λ i, fst i = "page") payload in
    match pages with
    | [] => mret ()
    | page :: _ =>
        let output := mkOutput "display_data" None "" (snd page) in
        call_model model (model_add output)
    end.

(** [new Promise(...)] and the [resolve] it passes to its executor. *)
Definition new_Promise : M nat :=
  λ w, (Ok (length (promises w)), set_promises (promises w ++ [None]) w).

Definition resolve (promise : nat) (msg : Message) : M unit :=
  λ w,
    match promises w !! promise with
    | Some None =>
        (Ok (), set_promises (<[promise := Some msg]> (promises w)) w)
    | _ => (Ok (), w)
    end.

(** [kernel.requestExecute(content)], with the handlers then set on the
    future it returns. *)
Definition requestExecute (kernel : nat) (content : IExecuteRequest)
    (handlers : Future) : M unit :=
  λ w, (Ok (),
        set_futures (futures w ++ [handlers])
          (set_trace (trace w ++ [RequestExecute kernel content]) w)).

(** [execute] (lines 268-295); the result is the promise. *)
Definition execute (this : nat) (code : string) (kernel : nat) : M nat :=
  (* Override the default for `stop_on_error`. *)
  let content := mkExecuteRequest code true in
  a ← getArea this;
  call_model (model a) (model_clear false);;
  (* Make sure there were no input widgets. *)
  clear this;;
  promise ← new_Promise;
  requestExecute kernel content (mkFuture this kernel promise);;
  mret promise.

(** The three handlers of a future (lines 280-293). *)
Definition onIOPub (future : Future) (msg : Message) : M unit :=
  _onIOPub (f_this future) msg.

Definition onReply (future : Future) (msg : Message) : M unit :=
  _onExecuteReply (f_this future) msg;;
  resolve (f_promise future) msg.

Definition onStdin (future : Future) (msg : Message) : M unit :=
  if msg_type msg === "input_request" then
    _onInputRequest (f_this future) msg (f_kernel future)
  else mret ().

(** A computation that leaves a part of the world as it is. *)
Definition keeps {X A : Type} (part : World → X) (m : M A) : Prop :=
  ∀ w, part (snd (m w)) = part w.

End OutputAreaMethods.

(** ** A list model and a sample world, for concrete runs *)

(** Modelled from the spec: the observable output-list model (the module
    ./model is not among the sources).  The spec describes it as "an
    observable output-list model exposing add/remove/set change events";
    this instance keeps the list of outputs, [add] appends and notifies
    'add', [clear] empties the list and notifies 'remove' unless it is told
    to wait. *)
Global Instance ListModel : IOutputAreaModel (list IOutput) := {
  model_add output outputs :=
    (outputs ++ [output],
     [mkChangedArgs "add" 0 (length outputs) [] [output]]);
  model_clear wait outputs :=
    if wait then (outputs, [])
    else ([], [mkChangedArgs "remove" 0 0 outputs []])
}.

Module Sample.
(** A renderer that knows the MIME type text/plain only; the widget it
    makes shows the payload. *)
Definition rendermime : RenderMime :=
  mkRenderMime (λ model,
    match model with
    | Some m =>
        match filter (λ kv, fst kv = "text/plain") (data m) with
        | kv :: _ => Some (mkWidget ["jp-RenderedText"] (snd kv) [] PlainWidget)
        | [] => None
        end
    | None => None
    end).

(** A layout in which every output area is 0 pixels high. *)
Global Instance layout : Layout := {
  rect_height _ := "0"
}.

Definition stream (text : string) : IOutput :=
  mkOutput "stream" None "stdout" [("text/plain", text)].

Definition result (count : Z) (text : string) : IOutput :=
  mkOutput "execute_result" (Some count) "" [("text/plain", text)].

Definition display (text : string) : IOutput :=
  mkOutput "display_data" None "" [("text/plain", text)].

Definition unrenderable : IOutput :=
  mkOutput "display_data" None "" [("application/x-unknown", "?")].

(** A world with one model (reference 0) and no output area yet. *)
Definition empty_world : World (Model := list IOutput) :=
  mkWorld [[]] [] [] [] [] [] [].

(** The state a computation leaves, and its result. *)
Definition after {A : Type} (m : M A) (w : World (Model := list IOutput))
  : World := snd (m w).

Definition options : IOptions := mkOptions rendermime 0 None.

(** One output area (reference 0) on the model. *)
Definition one_area : World := after (new_OutputArea options) empty_world.

Definition input_request : Message :=
  mkMessage "input_request" (mkContent None "" [] false [] false []).

Definition stream_msg (text : string) : Message :=
  mkMessage "stream"
            (mkContent None "stdout" [("text/plain", text)] false [] false []).

Definition display_msg (text : string) : Message :=
  mkMessage "display_data"
            (mkContent None "" [("text/plain", text)] false [] false []).

Definition reply_msg : Message :=
  mkMessage "execute_reply" (mkContent None "" [] false [] false []).

(** The children of area 0. *)
Definition children_of (w : World (Model := list IOutput)) : list Widget :=
  match areas w !! 0 with
  | Some a => widgets a
  | None => []
  end.

(** A child at a glance: whether it bears the stdin class, and the texts
    of the widgets in it. *)
Definition describe (child : Widget) : bool * list string :=
  (hasClass STDIN_CLASS child, text <$> children child).

(** An output area as the constructor leaves it. *)
Definition fresh_area : OutputArea :=
  mkOutputArea 0 rendermime defaultContentFactory [OUTPUT_AREA_CLASS]
               "" false [] "" false false false false None.

(** The kernel asks for input, then prints: a stdin child, then an
    output child. *)
Definition stdin_then_output : World :=
  after (_onInputRequest 0 input_request 7;;
         _onIOPub 0 (stream_msg "a")) one_area.

(** Two displays: two output children. *)
Definition two_outputs : World :=
  after (_onIOPub 0 (display_msg "a");; _onIOPub 0 (display_msg "b"))
        one_area.

(** Four displays. *)
Definition four_outputs : World :=
  after (_onIOPub 0 (display_msg "c");; _onIOPub 0 (display_msg "d"))
        two_outputs.
End Sample.


(** ** Predicates used to state the properties *)

(** A child that does not bear the stdin class. *)
Definition isOutput (w : Widget) : Prop := hasClass STDIN_CLASS w = false.

Global Instance isOutput_dec (w : Widget) : Decision (isOutput w).
Proof. unfold isOutput. apply _. Defined.

(** The two state classes of an output area agree with its two flags, as
    they do after the constructor and after every [onUpdateRequest]. *)
Definition classesReflectState (a : OutputArea) : Prop :=
  Area.hasClass COLLAPSED_CLASS a = _collapsed a ∧
  Area.hasClass FIXED_HEIGHT_CLASS a = _fixedHeight a.


(** ** Delivery of DOM events and timers *)

Module GutterEvents.
(** The DOM hands an event to [handleEvent] only through a listener the
    gutter has registered: 'mousedown' on its node (lines 728, 737),
    'mouseup' and 'mousemove' on the document (lines 747-748, 757-758,
    805-806). *)
Definition listens (this : Gutter) (event : Event) : bool :=
  (ev_type event === "mousedown") && nodeListensMousedown this
  || (ev_type event === "mouseup") && documentListensMouseup this
  || (ev_type event === "mousemove") && documentListensMousemove this.

Definition deliver (this : Gutter) (event : Event) : Result (Gutter * Event) :=
  if listens this event then Gutter.handleEvent this event
  else Ok (this, event).

(** A drag is in progress from [_startDrag] until the callback of lines
    807-809 has run. *)
Definition dragging (this : Gutter) : bool :=
  bool_decide (is_Some (_drag this)).

(** While a drag is in progress the toolkit's [Drag] object has listeners
    of its own on the document, in the capture phase.  It stops every event
    there, so a press does not reach the gutter's node; a release of the
    left button or the Escape key (code 27) ends the drag. *)
Definition stoppedByDrag (event : Event) : bool :=
  ev_type event === "mousedown".

Definition endsDrag (event : Event) : bool :=
  (ev_type event === "mouseup") && (button event =? 0)%Z
  || (ev_type event === "keydown") && (keyCode event =? 27)%Z.

(** One event of the document: the gutter's listeners run, and when the
    event ends the drag in progress the promise of [start] resolves and
    the callback of lines 807-809 runs. *)
Definition step (this : Gutter) (event : Event) : Result Gutter :=
  match
    if dragging this && stoppedByDrag event then Ok (this, event)
    else deliver this event
  with
  | Ok (this', _) =>
      Ok (if dragging this && endsDrag event then Gutter.dragEnded this'
          else this')
  | Throw e => Throw e
  end.

(** A run of events, stopped by the first exception. *)
Fixpoint deliverAll (this : Gutter) (events : list Event) : Result Gutter :=
  match events with
  | [] => Ok this
  | event :: rest =>
      match step this event with
      | Ok this' => deliverAll this' rest
      | Throw e => Throw e
      end
  end.

(** The pointer is within the drag threshold of a press position on both
    axes (the test of line 781). *)
Definition near (press : Z * Z) (event : Event) : Prop :=
  (Z.abs (clientX event - press.1) < DRAG_THRESHOLD)%Z ∧
  (Z.abs (clientY event - press.2) < DRAG_THRESHOLD)%Z.
End GutterEvents.

Section Timers.

Context {Model : Type} `{!IOutputAreaModel Model} `{!Layout}.

(** The timer with this id fires: it is no longer pending and the callback
    [clear] gave to [setTimeout] runs.  A cleared or unknown timer does
    nothing. *)
Definition fireTimeout (id : nat) : M (Model := Model) unit :=
  λ w,
    if 0 <? id then
      match timeouts w !! pred id with
      | Some (Some this) =>
          minHeightTimeout_fired this
            (set_timeouts (<[pred id := None]> (timeouts w)) w)
      | _ => (Ok (), w)
      end
    else (Ok (), w).

(** A computation that takes every world to one related to it. *)
Definition preserves {A : Type}
    (R : World (Model := Model) → World (Model := Model) → Prop)
    (m : M A) : Prop :=
  ∀ w, R w (snd (m w)).

End Timers.

(** Two states of an output area that differ at most in the children, the
    minimum height and its timer. *)
Definition sameButChildren (a a' : OutputArea) : Prop :=
  model a' = model a ∧
  rendermime a' = rendermime a ∧
  contentFactory a' = contentFactory a ∧
  area_classList a' = area_classList a ∧
  title_label a' = title_label a ∧
  title_closable a' = title_closable a ∧
  updateRequested a' = updateRequested a ∧
  isDisposed a' = isDisposed a ∧
  _fixedHeight a' = _fixedHeight a ∧
  _collapsed a' = _collapsed a.

(** Two worlds that differ at most in the children, minimum height and
    timer of the output areas in [touched], in the pending timers and in
    the trace. *)
Definition onlyChildrenChange {Model : Type} (touched : nat → Prop)
    (w w' : World (Model := Model)) : Prop :=
  models w' = models w ∧
  connections w' = connections w ∧
  promises w' = promises w ∧
  futures w' = futures w ∧
  length (areas w') = length (areas w) ∧
  ∀ r a, areas w !! r = Some a →
         ∃ a', areas w' !! r = Some a' ∧ sameButChildren a a' ∧
               (¬ touched r → a' = a).

(** An output area once the toolkit has disposed it ([dispose], lines
    228-230, hands over to the toolkit's [Widget.dispose]): [isDisposed] is
    true and the children, disposed with the layout, are gone.  A pending
    timer is not cleared by it: the test of line 258 is there for the timer
    that fires afterwards. *)
Definition disposed (a : OutputArea) : OutputArea :=
  mkOutputArea (model a) (rendermime a) (contentFactory a) (area_classList a)
               (title_label a) (title_closable a) [] (style_minHeight a)
               (updateRequested a) true (_fixedHeight a) (_collapsed a)
               (_minHeightTimeout a).

(** [Number.isSafeInteger]: the integers a JavaScript number holds exactly.
    A template string prints such a number in decimal, as [pretty] does;
    beyond 1e21 it prints an exponent. *)
Definition isSafeInteger (n : Z) : Prop := (- 2 ^ 53 < n < 2 ^ 53)%Z.

(** * Properties *)

(** ** Class lists *)

Lemma contains_spec (name : string) (cl : list string) :
  ClassList.contains name cl = true ↔ name ∈ cl.
Proof. unfold ClassList.contains. apply bool_decide_eq_true. Qed.

Lemma contains_add (name c : string) (cl : list string) :
  ClassList.contains c (ClassList.add name cl)
  = bool_decide (c = name) || ClassList.contains c cl.
Proof.
  unfold ClassList.add, ClassList.contains.
  destruct (bool_decide (name ∈ cl)) eqn:Hin.
  - apply bool_decide_eq_true in Hin.
    destruct (bool_decide (c = name)) eqn:Hc; [|done].
    apply bool_decide_eq_true in Hc. subst c.
    simpl. by apply bool_decide_eq_true.
  - apply eq_true_iff_eq. rewrite orb_true_iff, !bool_decide_eq_true.
    rewrite elem_of_app, list_elem_of_singleton. tauto.
Qed.

Lemma contains_remove (name c : string) (cl : list string) :
  ClassList.contains c (ClassList.remove name cl)
  = negb (bool_decide (c = name)) && ClassList.contains c cl.
Proof.
  unfold ClassList.remove, ClassList.contains.
  apply eq_true_iff_eq.
  rewrite andb_true_iff, negb_true_iff, bool_decide_eq_false,
    !bool_decide_eq_true, list_elem_of_filter.
  tauto.
Qed.

Lemma contains_toggle (name c : string) (force : bool) (cl : list string) :
  ClassList.contains c (ClassList.toggle name force cl)
  = if bool_decide (c = name) then force else ClassList.contains c cl.
Proof.
  unfold ClassList.toggle. destruct force.
  - rewrite contains_add. by destruct (bool_decide (c = name)).
  - rewrite contains_remove. by destruct (bool_decide (c = name)).
Qed.

(** Toggling a class to the state it is in leaves the list as it is. *)
Lemma toggle_same (name : string) (cl : list string) :
  ClassList.toggle name (ClassList.contains name cl) cl = cl.
Proof.
  unfold ClassList.toggle, ClassList.add.
  destruct (ClassList.contains name cl) eqn:Hc; [done|].
  unfold ClassList.remove, ClassList.contains in *.
  apply bool_decide_eq_false in Hc.
  induction cl as [|c cl IH]; [done|].
  apply not_elem_of_cons in Hc as [Hne Hc].
  rewrite filter_cons.
  destruct (decide (c ≠ name)) as [_|Heq].
  - f_equal. by apply IH.
  - exfalso. apply Heq. congruence.
Qed.

(** ** The [collapsed] and [fixedHeight] flags *)

Lemma onUpdateRequest_reflects (a : OutputArea) :
  classesReflectState (Area.onUpdateRequest a).
Proof.
  unfold classesReflectState, Area.onUpdateRequest, Area.hasClass,
    Area.toggleClass, Area.collapsed, Area.fixedHeight.
  simpl. rewrite !contains_toggle. simpl. done.
Qed.

Lemma onUpdateRequest_settled (a : OutputArea) :
  classesReflectState a → Area.onUpdateRequest a = a.
Proof.
  intros [Hc Hf]. unfold Area.hasClass in *.
  unfold Area.onUpdateRequest, Area.toggleClass, Area.collapsed,
    Area.fixedHeight, Area.with_classList.
  simpl.
  assert (ClassList.toggle COLLAPSED_CLASS (_collapsed a) (area_classList a)
          = area_classList a) as ->
    by (rewrite <- Hc; apply toggle_same).
  assert (ClassList.toggle FIXED_HEIGHT_CLASS (_fixedHeight a)
            (area_classList a) = area_classList a) as ->
    by (rewrite <- Hf; apply toggle_same).
  by destruct a.
Qed.

(** Whatever the classes were, the update that follows a change of
    [collapsed] sets each of the two state classes from its flag. *)
Lemma update_after_set_collapsed (a : OutputArea) (value : bool) :
  value ≠ _collapsed a →
  Area.deliverUpdateRequest (Area.set_collapsed value a)
  = Area.with_updateRequested false
      (Area.with_classList
         (ClassList.toggle FIXED_HEIGHT_CLASS (_fixedHeight a)
            (ClassList.toggle COLLAPSED_CLASS value (area_classList a)))
         (Area.with_collapsed value a)).
Proof.
  intros Hv. unfold Area.set_collapsed.
  by rewrite bool_decide_eq_false_2 by congruence.
Qed.

Lemma update_after_set_fixedHeight (a : OutputArea) (value : bool) :
  value ≠ _fixedHeight a →
  Area.deliverUpdateRequest (Area.set_fixedHeight value a)
  = Area.with_updateRequested false
      (Area.with_classList
         (ClassList.toggle FIXED_HEIGHT_CLASS value
            (ClassList.toggle COLLAPSED_CLASS (_collapsed a)
               (area_classList a)))
         (Area.with_fixedHeight value a)).
Proof.
  intros Hv. unfold Area.set_fixedHeight.
  by rewrite bool_decide_eq_false_2 by congruence.
Qed.

(** C8, as amended.  In an output area whose two state classes agree with
    its flags (no flag change is waiting for an update), setting
    [collapsed] (or [fixedHeight]) to a new value and delivering the update
    request changes the class list by toggling 'jp-mod-collapsed' (or
    'jp-mod-fixedHeight') to the new value, so every other class is present
    exactly when it was; the flag holds the new value, no update is left
    pending and no other field of the widget changes.  Setting either
    property to the value it has returns the widget as it was, with no
    update requested. *)
Theorem flag_setters_toggle_own_class (a : OutputArea) (value : bool) :
  (classesReflectState a →
   value ≠ _collapsed a →
     let a' := Area.deliverUpdateRequest (Area.set_collapsed value a) in
     a' = Area.with_updateRequested false
            (Area.with_classList
               (ClassList.toggle COLLAPSED_CLASS value (area_classList a))
               (Area.with_collapsed value a)) ∧
     Area.hasClass COLLAPSED_CLASS a' = negb (Area.hasClass COLLAPSED_CLASS a) ∧
     ∀ c, c ≠ COLLAPSED_CLASS → Area.hasClass c a' = Area.hasClass c a) ∧
  (classesReflectState a →
   value ≠ _fixedHeight a →
     let a' := Area.deliverUpdateRequest (Area.set_fixedHeight value a) in
     a' = Area.with_updateRequested false
            (Area.with_classList
               (ClassList.toggle FIXED_HEIGHT_CLASS value (area_classList a))
               (Area.with_fixedHeight value a)) ∧
     Area.hasClass FIXED_HEIGHT_CLASS a' =
       negb (Area.hasClass FIXED_HEIGHT_CLASS a) ∧
     ∀ c, c ≠ FIXED_HEIGHT_CLASS → Area.hasClass c a' = Area.hasClass c a) ∧
  Area.set_collapsed (_collapsed a) a = a ∧
  Area.set_fixedHeight (_fixedHeight a) a = a.
Proof.
  split; [|split; [|split]].
  - intros [Hc Hf] Hv. unfold Area.hasClass in Hc, Hf.
    cbv zeta. rewrite update_after_set_collapsed by done.
    unfold Area.hasClass. simpl.
    set (cl := ClassList.toggle COLLAPSED_CLASS value (area_classList a)).
    assert (ClassList.toggle FIXED_HEIGHT_CLASS (_fixedHeight a) cl = cl)
      as ->.
    { rewrite <- Hf.
      replace (ClassList.contains FIXED_HEIGHT_CLASS (area_classList a))
        with (ClassList.contains FIXED_HEIGHT_CLASS cl); [apply toggle_same|].
      unfold cl. rewrite contains_toggle.
      by rewrite bool_decide_eq_false_2. }
    split; [done|split].
    + unfold cl. rewrite contains_toggle, bool_decide_eq_true_2, Hc by done.
      destruct (_collapsed a) eqn:E, value; simpl; congruence.
    + intros c Hne. unfold cl. rewrite contains_toggle.
      by rewrite bool_decide_eq_false_2.
  - intros [Hc Hf] Hv. unfold Area.hasClass in Hc, Hf.
    cbv zeta. rewrite update_after_set_fixedHeight by done.
    unfold Area.hasClass. simpl.
    assert (ClassList.toggle COLLAPSED_CLASS (_collapsed a)
              (area_classList a) = area_classList a) as ->
      by (rewrite <- Hc; apply toggle_same).
    split; [done|split].
    + rewrite contains_toggle, bool_decide_eq_true_2, Hf by done.
      destruct (_fixedHeight a) eqn:E, value; simpl; congruence.
    + intros c Hne. rewrite contains_toggle.
      by rewrite bool_decide_eq_false_2.
  - unfold Area.set_collapsed. by rewrite bool_decide_eq_true_2.
  - unfold Area.set_fixedHeight. by rewrite bool_decide_eq_true_2.
Qed.

(** ** The gutter's drag threshold *)

(** A mouse move below the threshold on both axes leaves the gutter as it
    is, whatever its state. *)
Lemma mousemove_below_threshold (this : Gutter) (move : Event)
    (pressX pressY : Z) :
  _dragData this = Some (pressX, pressY) →
  (Z.abs (clientX move - pressX) < DRAG_THRESHOLD)%Z →
  (Z.abs (clientY move - pressY) < DRAG_THRESHOLD)%Z →
  Gutter._evtMousemove this move
  = Ok (this, stopPropagation (preventDefault move)).
Proof.
  intros Hd Hx Hy. unfold Gutter._evtMousemove. rewrite Hd. simpl.
  destruct (_drag this); [done|].
  apply Z.ltb_lt in Hx, Hy. by rewrite Hx, Hy.
Qed.

(** While a drag is in progress a mouse move changes nothing. *)
Lemma mousemove_while_dragging (this : Gutter) (move : Event) :
  is_Some (_drag this) →
  Gutter._evtMousemove this move
  = Ok (this, stopPropagation (preventDefault move)).
Proof. intros [d Hd]. unfold Gutter._evtMousemove. by rewrite Hd. Qed.

(** C7.  After a left-button press at (pressX, pressY) on a gutter with no
    drag in progress, a mouse move starts a drag exactly when the pointer is
    at least [DRAG_THRESHOLD] = 5 pixels from the press position along the
    horizontal or the vertical axis; the drag is started at the pointer's
    position.  Below the threshold on both axes the gutter is unchanged, and
    once the gutter holds a drag a further mouse move leaves it unchanged,
    so no second drag is started. *)
Theorem drag_starts_at_threshold (this : Gutter) (down move : Event) :
  _drag this = None →
  button down = 0%Z →
  let pressed := Gutter._evtMousedown this down in
  let dx := Z.abs (clientX move - clientX down) in
  let dy := Z.abs (clientY move - clientY down) in
  DRAG_THRESHOLD = 5%Z ∧
  ∃ moved,
    Gutter._evtMousemove pressed move
    = Ok (moved, stopPropagation (preventDefault move)) ∧
    (is_Some (_drag moved) ↔ (DRAG_THRESHOLD ≤ dx ∨ DRAG_THRESHOLD ≤ dy)%Z) ∧
    ((dx < DRAG_THRESHOLD ∧ dy < DRAG_THRESHOLD)%Z → moved = pressed) ∧
    (is_Some (_drag moved) →
       (startedAt <$> _drag moved) = Some (Some (clientX move, clientY move)) ∧
       ∀ next, Gutter._evtMousemove moved next
               = Ok (moved, stopPropagation (preventDefault next))).
Proof.
  intros Hdrag Hbutton pressed dx dy. split; [done|].
  assert (_dragData pressed = Some (clientX down, clientY down)) as Hdata.
  { unfold pressed, Gutter._evtMousedown. by rewrite Hbutton. }
  assert (_drag pressed = None) as Hnone.
  { unfold pressed, Gutter._evtMousedown. by rewrite Hbutton. }
  assert (∀ g, is_Some (_drag g) → ∀ next,
            Gutter._evtMousemove g next
            = Ok (g, stopPropagation (preventDefault next))) as Hstay.
  { intros g Hg next. by apply mousemove_while_dragging. }
  destruct (Z.ltb_spec dx DRAG_THRESHOLD) as [Hx|Hx];
    [destruct (Z.ltb_spec dy DRAG_THRESHOLD) as [Hy|Hy]|].
  - exists pressed.
    rewrite (mousemove_below_threshold _ _ _ _ Hdata Hx Hy).
    rewrite Hnone. split; [done|]. split; [|split].
    + split; [by intros [? ?] | intros [?|?]; lia].
    + done.
    + by intros [? ?].
  - exists (Gutter._startDrag pressed (clientX move) (clientY move)).
    unfold Gutter._evtMousemove at 1. rewrite Hnone, Hdata. simpl.
    fold dx dy.
    apply Z.ltb_lt in Hx as Hx'. apply Z.ltb_ge in Hy as Hy'.
    rewrite Hx', Hy'. simpl. split; [done|]. split; [|split].
    + split; [by right | by eexists].
    + lia.
    + intros Hs. split; [done|]. by apply Hstay.
  - exists (Gutter._startDrag pressed (clientX move) (clientY move)).
    unfold Gutter._evtMousemove at 1. rewrite Hnone, Hdata. simpl.
    fold dx dy.
    apply Z.ltb_ge in Hx as Hx'. rewrite Hx'. simpl.
    split; [done|]. split; [|split].
    + split; [by left | by eexists].
    + lia.
    + intros Hs. split; [done|]. by apply Hstay.
Qed.

(** ** The stdin widget *)




(** ** The content factory *)

Lemma hasClass_addClass (name c : string) (w : Widget) :
  hasClass c (addClass name w) = bool_decide (c = name) || hasClass c w.
Proof. unfold hasClass, addClass. simpl. apply contains_add. Qed.

(** C6.  [createOutput] of the default content factory.  When the renderer
    yields no widget for the model, it logs the warning 'Did not find
    renderer for output mimebundle.' on the console and returns a new
    widget with no class, no text and no child, and does not throw.  When
    the renderer yields a widget, nothing is logged and that widget is
    returned with the class of the model's output type added:
    'jp-Output-executeResult' for execute_result, 'jp-Output-displayData'
    for display_data, 'jp-Output-stdout' or 'jp-Output-stderr' for a stream
    named stdout or otherwise, 'jp-Output-error' for error; for any other
    output type the widget is returned as rendered. *)
Theorem createOutput_placeholder_or_classed (options : IOutputOptions) :
  (render (oo_rendermime options) (oo_model options) = None →
     ContentFactory.createOutput options
     = ([ConsoleWarn "Did not find renderer for output mimebundle."],
        Ok (new_Widget, oo_gutter options)) ∧
     new_Widget = mkWidget [] "" [] PlainWidget) ∧
  (∀ widget model,
     render (oo_rendermime options) (oo_model options) = Some widget →
     oo_model options = Some model →
     ∃ returned gutter,
       ContentFactory.createOutput options = ([], Ok (returned, gutter)) ∧
       (output_type model = "execute_result" →
          returned = addClass EXECUTE_CLASS widget) ∧
       (output_type model = "display_data" →
          returned = addClass DISPLAY_CLASS widget) ∧
       (output_type model = "stream" → name model = "stdout" →
          returned = addClass STDOUT_CLASS widget) ∧
       (output_type model = "stream" → name model ≠ "stdout" →
          returned = addClass STDERR_CLASS widget) ∧
       (output_type model = "error" →
          returned = addClass ERROR_CLASS widget) ∧
       (output_type model ∉
          ["execute_result"; "display_data"; "stream"; "error"] →
          returned = widget)).
Proof.
  split.
  - intros Hr. unfold ContentFactory.createOutput. by rewrite Hr.
  - intros widget model Hr Hm.
    unfold ContentFactory.createOutput. rewrite Hr, Hm.
    destruct (String.eqb_spec (output_type model) "execute_result") as [E1|E1];
      [|destruct (String.eqb_spec (output_type model) "display_data")
          as [E2|E2];
        [|destruct (String.eqb_spec (output_type model) "stream") as [E3|E3];
          [destruct (String.eqb_spec (name model) "stdout") as [E5|E5]
          |destruct (String.eqb_spec (output_type model) "error")
             as [E4|E4]]]];
      do 2 eexists; (split; [reflexivity|]);
      repeat split; intros; try congruence.
    all: exfalso.
    all: repeat match goal with
           | H : _ ∉ _ :: _ |- _ => apply not_elem_of_cons in H as [? H]
           end; congruence.
Qed.

(** ** The two loops over the children *)

(** The loop of [clear] disposes the first half of the children, rounded
    up, and leaves the rest. *)
Lemma clear_loop_spec (ws : list Widget) (i : nat) :
  Area.clear_loop i ws
  = (Disposed <$> take ((length ws - i + 1) / 2) ws,
     Ok (drop ((length ws - i + 1) / 2) ws)).
Proof.
  revert i. induction ws as [|w ws IH]; intros i.
  - simpl. destruct (i <? 0) eqn:E; [apply Nat.ltb_lt in E; lia|done].
  - cbn [Area.clear_loop].
    destruct (i <? length (w :: ws)) eqn:E.
    + apply Nat.ltb_lt in E. simpl in E. rewrite IH.
      assert ((length (w :: ws) - i + 1) / 2
              = S ((length ws - S i + 1) / 2)) as ->; [|done].
      simpl length. destruct (decide (i = length ws)) as [->|Hne].
      * by replace (S (length ws) - length ws + 1) with 2 by lia;
          replace (length ws - S (length ws) + 1) with 1 by lia.
      * replace (S (length ws) - i + 1) with ((length ws - S i + 1) + 1 * 2)
          by lia.
        rewrite Nat.div_add by done. lia.
    + apply Nat.ltb_ge in E. simpl in E.
      replace (length (w :: ws) - i + 1) with 1 by (simpl; lia). done.
Qed.

(** The children [clear]'s loop leaves: half of them, rounded down. *)
Lemma clear_loop_remaining (ws : list Widget) :
  ∃ remaining, snd (Area.clear_loop 0 ws) = Ok remaining ∧
               length remaining = length ws / 2.
Proof.
  rewrite clear_loop_spec. eexists. split; [done|].
  rewrite length_drop, Nat.sub_0_r.
  pose proof (Nat.div_mod_eq (length ws) 2).
  pose proof (Nat.div_mod_eq (length ws + 1) 2).
  pose proof (Nat.mod_upper_bound (length ws) 2).
  pose proof (Nat.mod_upper_bound (length ws + 1) 2).
  lia.
Qed.

(** One turn of the loop of [_setOutput], with [widgets.at(i)] read from
    the whole list. *)
Lemma skip_stdin_turn (ws : list Widget) (i index : nat) :
  Area.skip_stdin (drop i ws) i index
  = if i <? index then
      match ws !! i with
      | None => Throw TypeError
      | Some w =>
          Area.skip_stdin (drop (S i) ws) (S i)
            (if hasClass STDIN_CLASS w then S index else index)
      end
    else Ok index.
Proof.
  destruct (ws !! i) as [w|] eqn:Hw.
  - by rewrite (drop_S _ _ _ Hw).
  - apply lookup_ge_None in Hw. rewrite drop_ge by done. simpl.
    by destruct (i <? index).
Qed.

(** The loop invariant of [skip_stdin]: [index - i] children without the
    stdin class remain to be passed. *)
Lemma skip_stdin_spec (ws : list Widget) (i index p : nat) :
  i ≤ index →
  Area.skip_stdin ws i index = Ok p →
  index ≤ p ∧ p - i ≤ length ws ∧
  length (filter isOutput (take (p - i) ws)) = index - i ∧
  (p = i ∨ ∃ w, ws !! (p - i - 1) = Some w ∧ isOutput w).
Proof.
  revert i index. induction ws as [|w ws IH]; intros i index Hle Hrun.
  - simpl in Hrun. destruct (i <? index) eqn:E; [done|].
    apply Nat.ltb_ge in E. injection Hrun as <-.
    replace (index - i) with 0 by lia. simpl.
    split; [lia|split; [lia|split; [done|left; lia]]].
  - cbn [Area.skip_stdin] in Hrun.
    destruct (i <? index) eqn:E.
    + apply Nat.ltb_lt in E.
      destruct (hasClass STDIN_CLASS w) eqn:Hw.
      * apply IH in Hrun as (H1 & H2 & H3 & H4); [|lia].
        replace (p - i) with (S (p - S i)) by lia.
        rewrite firstn_cons, filter_cons.
        destruct (decide (isOutput w)) as [Ho|_];
          [unfold isOutput in Ho; congruence|].
        simpl length. split; [lia|split; [lia|split; [lia|]]].
        right. destruct H4 as [->|(w' & Hw' & Ho)]; [lia|].
        exists w'. split; [|done].
        replace (S (p - S i) - 1) with (S (p - S i - 1)) by lia. done.
      * apply IH in Hrun as (H1 & H2 & H3 & H4); [|lia].
        replace (p - i) with (S (p - S i)) by lia.
        rewrite firstn_cons, filter_cons.
        destruct (decide (isOutput w)) as [_|Hn]; [|done].
        simpl length. split; [lia|split; [lia|split; [lia|]]].
        right. destruct (decide (p = S i)) as [->|Hp].
        -- exists w. replace (S (S i - S i) - 1) with 0 by lia. done.
        -- destruct H4 as [->|(w' & Hw' & Ho)]; [done|].
           exists w'. split; [|done].
           replace (S (p - S i) - 1) with (S (p - S i - 1)) by lia. done.
    + apply Nat.ltb_ge in E. injection Hrun as <-.
      replace (index - i) with 0 by lia. simpl.
      split; [lia|split; [lia|split; [done|left; lia]]].
Qed.

(** The position [_setOutput] resolves for index [k] has exactly [k]
    children without the stdin class before it, and is either 0 or just
    after such a child: stdin children that directly precede the [k]-th
    output are not skipped. *)
Lemma setOutput_position (ws : list Widget) (k p : nat) :
  Area.skip_stdin ws 0 k = Ok p →
  p ≤ length ws ∧
  length (filter isOutput (take p ws)) = k ∧
  (p = 0 ∨ ∃ child, ws !! (p - 1) = Some child ∧ isOutput child).
Proof.
  intros Hs. apply skip_stdin_spec in Hs as (H1 & H2 & H3 & H4); [|lia].
  rewrite !Nat.sub_0_r in *. done.
Qed.


(** ** The output area's methods *)

Section OutputAreaProperties.
Context {Model : Type} `{!IOutputAreaModel Model} `{!Layout}.
Implicit Types (w : World (Model := Model)).
Local Abbreviation M := (M (Model := Model)).

Lemma getArea_Some w this a :
  areas w !! this = Some a → getArea this w = (Ok a, w).
Proof. intros E. unfold getArea. by rewrite E. Qed.

Lemma bind_Ok {A B : Type} (m : M A) (f : A → M B) w a w1 :
  m w = (Ok a, w1) → (m ≫= f) w = f a w1.
Proof. intros E. unfold mbind, StateErr_bind. by rewrite E. Qed.

Lemma bind_Throw {A B : Type} (m : M A) (f : A → M B) w e w1 :
  m w = (Throw e, w1) → (m ≫= f) w = (Throw e, w1).
Proof. intros E. unfold mbind, StateErr_bind. by rewrite E. Qed.

Lemma modifyArea_Some w this a f :
  areas w !! this = Some a →
  modifyArea this f w = (Ok (), set_areas (<[this := f a]> (areas w)) w).
Proof.
  intros E. unfold modifyArea. by rewrite (bind_Ok _ _ _ _ _ (getArea_Some _ _ _ E)).
Qed.

Lemma insert_last {A : Type} (l : list A) (x y : A) :
  <[length l := y]> (l ++ [x]) = l ++ [y].
Proof.
  replace (length l) with (length l + 0) by lia. by rewrite insert_app_r.
Qed.

Lemma mirror_run w this a :
  areas w !! this = Some a →
  mirror this w
  = (Ok (length (areas w)),
     set_connections (connections w ++ [(model a, length (areas w))])
       (set_areas
          (areas w ++
           [mkOutputArea (model a) (rendermime a) (contentFactory a)
              [OUTPUT_AREA_CLASS; MIRRORED_OUTPUT_AREA_CLASS]
              "Mirrored Output" true [] "" false false false false None])
          w)).
Proof.
  intros Ha.
  unfold mirror.
  rewrite (bind_Ok _ _ _ _ _ (getArea_Some _ _ _ Ha)).
  erewrite bind_Ok by (unfold new_OutputArea; reflexivity).
  erewrite bind_Ok.
  2:{ apply modifyArea_Some. simpl. apply list_lookup_middle. done. }
  simpl. rewrite insert_last.
  erewrite bind_Ok.
  2:{ apply modifyArea_Some. simpl. apply list_lookup_middle. done. }
  simpl. rewrite insert_last.
  erewrite bind_Ok.
  2:{ apply modifyArea_Some. simpl. apply list_lookup_middle. done. }
  simpl. rewrite insert_last.
  reflexivity.
Qed.


Lemma liftEff_Ok {A : Type} (c : Eff A) effects x w :
  c = (effects, Ok x) →
  liftEff c w = (Ok x, set_trace (trace w ++ effects) w).
Proof. intros ->. reflexivity. Qed.

Lemma liftEff_Throw {A : Type} (c : Eff A) effects e w :
  c = (effects, Throw e) →
  liftEff c w = (Throw e, set_trace (trace w ++ effects) w).
Proof. intros ->. reflexivity. Qed.

Lemma insertWidget_end (panel : Widget) (ws : list Widget) :
  insertWidget (length ws) panel ws = ws ++ [panel].
Proof.
  unfold insertWidget. rewrite Nat.min_id, firstn_all, drop_all. done.
Qed.

Lemma insertOutput_run w this a index model effects result gutter' :
  areas w !! this = Some a →
  createOutput (contentFactory a)
    (mkOutputOptions (rendermime a) model
       (addClass GUTTER_CLASS (createGutter (contentFactory a))))
  = (effects, Ok (result, gutter')) →
  _insertOutput this index model w
  = (Ok (),
     set_areas
       (<[this := Area.with_widgets
                    (insertWidget index (output_panel result) (widgets a)) a]>
          (areas w))
       (set_trace (trace w ++ effects) w)).
Proof.
  intros Ha Hc. unfold _insertOutput.
  rewrite (bind_Ok _ _ _ _ _ (getArea_Some _ _ _ Ha)).
  erewrite bind_Ok by (by apply liftEff_Ok).
  cbn beta iota. by rewrite (modifyArea_Some _ _ a).
Qed.

(** When the content factory throws, nothing is inserted. *)
Lemma insertOutput_throws w this a index model effects e :
  areas w !! this = Some a →
  createOutput (contentFactory a)
    (mkOutputOptions (rendermime a) model
       (addClass GUTTER_CLASS (createGutter (contentFactory a))))
  = (effects, Throw e) →
  _insertOutput this index model w
  = (Throw e, set_trace (trace w ++ effects) w).
Proof.
  intros Ha Hc. unfold _insertOutput.
  rewrite (bind_Ok _ _ _ _ _ (getArea_Some _ _ _ Ha)).
  by erewrite bind_Throw by (by apply liftEff_Throw).
Qed.

(** C5.  On an 'add' notification, whatever indices it carries, the panel
    built around the widget the content factory creates for the new value
    becomes the last child: the children are the former children followed
    by the panel, which sits at the index that was the number of children.
    No other output area changes. *)
Theorem add_appends_output w this sender args a effects result gutter' :
  areas w !! this = Some a →
  chg_type args = "add" →
  createOutput (contentFactory a)
    (mkOutputOptions (rendermime a) (head (newValues args))
       (addClass GUTTER_CLASS (createGutter (contentFactory a))))
  = (effects, Ok (result, gutter')) →
  let panel := output_panel result in
  ∃ w',
    _onModelChanged this sender args w = (Ok (), w') ∧
    areas w' !! this = Some (Area.with_widgets (widgets a ++ [panel]) a) ∧
    (widgets a ++ [panel]) !! length (widgets a) = Some panel ∧
    (∀ i, i < length (widgets a) →
          (widgets a ++ [panel]) !! i = widgets a !! i) ∧
    (∀ r, r ≠ this → areas w' !! r = areas w !! r).
Proof.
  intros Ha Ht Hc panel. eexists. split; [|split; [|split; [|split]]].
  - unfold _onModelChanged. rewrite Ht. simpl.
    rewrite (bind_Ok _ _ _ _ _ (getArea_Some _ _ _ Ha)).
    rewrite (insertOutput_run _ _ _ _ _ _ _ _ Ha Hc).
    by rewrite insertWidget_end.
  - simpl. apply list_lookup_insert_eq. by eapply lookup_lt_Some.
  - by apply list_lookup_middle.
  - intros i Hi. by rewrite lookup_app_l.
  - intros r Hr. simpl. by rewrite list_lookup_insert_ne.
Qed.

(** *** What the methods that follow a notification leave alone

    A part of the world that does not depend on the output areas, the
    trace or the timers (the models, the promises, the futures, the
    connections) is the same after any of these methods. *)

Section Frame.

Context {X : Type} (part : World (Model := Model) → X).
Hypothesis part_areas : ∀ x w, part (set_areas x w) = part w.
Hypothesis part_trace : ∀ x w, part (set_trace x w) = part w.
Hypothesis part_timeouts : ∀ x w, part (set_timeouts x w) = part w.

Lemma keeps_mret {A : Type} (a : A) : keeps part (mret a : M A).
Proof. by intros w. Qed.

Lemma keeps_throw {A : Type} (e : Error) : keeps part (throw e : M A).
Proof. by intros w. Qed.

Lemma keeps_bind {A B : Type} (m : M A) (f : A → M B) :
  keeps part m → (∀ a, keeps part (f a)) → keeps part (m ≫= f).
Proof.
  intros Hm Hf w. unfold mbind, StateErr_bind.
  specialize (Hm w). destruct (m w) as [[a|e] w1]; simpl in *; [|done].
  by rewrite Hf.
Qed.

Lemma keeps_try_catch (m : M ()) (handler : Error → M ()) :
  keeps part m → (∀ e, keeps part (handler e)) →
  keeps part (try_catch m handler).
Proof.
  intros Hm Hh w. unfold try_catch.
  specialize (Hm w). destruct (m w) as [[a|e] w1]; simpl in *; [done|].
  by rewrite Hh.
Qed.

Lemma keeps_for_each {A : Type} (f : A → M ()) (l : list A) :
  (∀ x, keeps part (f x)) → keeps part (for_each f l).
Proof.
  intros Hf. induction l as [|x l IH]; simpl.
  - apply keeps_mret.
  - apply keeps_bind; [apply Hf | intros _; apply IH].
Qed.

Lemma keeps_getArea this : keeps part (getArea this).
Proof. intros w. unfold getArea. by destruct (areas w !! this). Qed.

Lemma keeps_setArea this a : keeps part (setArea this a).
Proof. intros w. apply part_areas. Qed.

Lemma keeps_perform effects : keeps part (perform effects).
Proof. intros w. apply part_trace. Qed.

Lemma keeps_liftResult {A : Type} (r : Result A) :
  keeps part (liftResult r : M A).
Proof. by destruct r. Qed.

Lemma keeps_setTimeout this : keeps part (setTimeout this).
Proof. intros w. apply part_timeouts. Qed.

Lemma keeps_clearTimeout id : keeps part (clearTimeout id).
Proof. intros w. apply part_timeouts. Qed.

Create HintDb keeps.
#[local] Hint Resolve keeps_mret keeps_throw keeps_try_catch keeps_for_each
  keeps_getArea keeps_setArea keeps_perform keeps_liftResult
  keeps_setTimeout keeps_clearTimeout : keeps.

Ltac keeps_step :=
  first
    [ apply keeps_bind; [|intros ?]
    | match goal with
      | |- keeps _ (if ?b then _ else _) => destruct b
      | |- keeps _ (match ?x with _ => _ end) => destruct x
      end
    | solve [eauto with keeps] ].

Lemma keeps_modifyArea this f : keeps part (modifyArea this f).
Proof. unfold modifyArea. repeat keeps_step. Qed.

Lemma keeps_liftEff {A : Type} (c : Eff A) : keeps part (liftEff c).
Proof. unfold liftEff. repeat keeps_step. Qed.

#[local] Hint Resolve keeps_modifyArea keeps_liftEff : keeps.

Lemma keeps_clear this : keeps part (clear this).
Proof. unfold clear. repeat keeps_step. Qed.

Lemma keeps_insertOutput this index model :
  keeps part (_insertOutput this index model).
Proof. unfold _insertOutput. repeat keeps_step. Qed.

Lemma keeps_dispose_child this index :
  keeps part (dispose_child this index).
Proof. unfold dispose_child. repeat keeps_step. Qed.

#[local] Hint Resolve keeps_clear keeps_insertOutput keeps_dispose_child
  : keeps.

Lemma keeps_setOutput this index model :
  keeps part (_setOutput this index model).
Proof. unfold _setOutput. repeat keeps_step. Qed.

#[local] Hint Resolve keeps_setOutput : keeps.

Lemma keeps_onModelChanged this sender args :
  keeps part (_onModelChanged this sender args).
Proof. unfold _onModelChanged. repeat keeps_step. Qed.

#[local] Hint Resolve keeps_onModelChanged : keeps.

Lemma keeps_emit sender args : keeps part (emit sender args).
Proof.
  intros w. unfold emit. apply keeps_for_each.
  intros conn. unfold invokeSlot. repeat keeps_step.
Qed.

Lemma keeps_notify sender notifications :
  keeps part (for_each (emit sender) notifications).
Proof. apply keeps_for_each. intros args. apply keeps_emit. Qed.

End Frame.

Lemma call_model_models w m state method :
  models w !! m = Some state →
  models (snd (call_model m method w)) = <[m := (method state).1]> (models w).
Proof.
  intros Hm. unfold call_model. rewrite Hm.
  destruct (method state) as [state' notifications]. simpl.
  by rewrite (keeps_notify models).
Qed.

(** C4.  [_onIOPub] on a message of type execute_result, display_data,
    stream or error calls the model's [add] with the message content whose
    [output_type] is the message type; on clear_output it calls the
    model's [clear] with the content's [wait] flag; in both cases the model
    of the area becomes what the call makes of it and no other model
    changes.  On a message of any other type nothing changes at all. *)
Theorem onIOPub_maps_messages w this a state msg :
  areas w !! this = Some a →
  models w !! model a = Some state →
  let output := with_output_type (msg_type msg) (content msg) in
  (msg_type msg ∈ ["execute_result"; "display_data"; "stream"; "error"] →
     output_type output = msg_type msg ∧
     models (snd (_onIOPub this msg w))
     = <[model a := (model_add output state).1]> (models w)) ∧
  (msg_type msg = "clear_output" →
     models (snd (_onIOPub this msg w))
     = <[model a := (model_clear (c_wait (content msg)) state).1]>
         (models w)) ∧
  (msg_type msg ∉ ["execute_result"; "display_data"; "stream"; "error";
                   "clear_output"] →
     _onIOPub this msg w = (Ok (), w)).
Proof.
  intros Ha Hm output.
  unfold _onIOPub. rewrite (bind_Ok _ _ _ _ _ (getArea_Some _ _ _ Ha)).
  split; [|split].
  - intros Hin. split; [done|].
    assert ((msg_type msg === "execute_result")
            || (msg_type msg === "display_data")
            || (msg_type msg === "stream")
            || (msg_type msg === "error") = true) as ->.
    { repeat (apply elem_of_cons in Hin as [->|Hin]; [done|]).
      by apply elem_of_nil in Hin. }
    by apply call_model_models.
  - intros ->. simpl. by apply call_model_models.
  - intros Hnot.
    repeat (apply not_elem_of_cons in Hnot as [? Hnot]).
    rewrite !(proj2 (String.eqb_neq _ _)) by done. done.
Qed.


Lemma clear_empty w this a :
  areas w !! this = Some a → widgets a = [] → clear this w = (Ok (), w).
Proof.
  intros Ha He. unfold clear.
  rewrite (bind_Ok _ _ _ _ _ (getArea_Some _ _ _ Ha)). by rewrite He.
Qed.

Lemma clear_run w this a :
  areas w !! this = Some a →
  widgets a ≠ [] →
  ∃ w' a',
    clear this w = (Ok (), w') ∧
    areas w' !! this = Some a' ∧
    widgets a' = drop ((length (widgets a) + 1) / 2) (widgets a) ∧
    length (widgets a') = length (widgets a) / 2 ∧
    trace w'
    = trace w ++ (Disposed <$> take ((length (widgets a) + 1) / 2) (widgets a)).
Proof.
  intros Ha Hne.
  pose proof (lookup_lt_Some _ _ _ Ha) as Hlt.
  assert ((length (widgets a) =? 0) = false) as Hlen.
  { apply Nat.eqb_neq. destruct (widgets a); [done|simpl; lia]. }
  pose proof (clear_loop_spec (widgets a) 0) as Hloop.
  rewrite Nat.sub_0_r in Hloop.
  set (k := (length (widgets a) + 1) / 2) in *.
  assert (length (drop k (widgets a)) = length (widgets a) / 2) as Hhalf.
  { rewrite length_drop. unfold k.
    pose proof (Nat.div_mod_eq (length (widgets a)) 2).
    pose proof (Nat.div_mod_eq (length (widgets a) + 1) 2).
    pose proof (Nat.mod_upper_bound (length (widgets a)) 2).
    pose proof (Nat.mod_upper_bound (length (widgets a) + 1) 2).
    lia. }
  unfold clear.
  rewrite (bind_Ok _ _ _ _ _ (getArea_Some _ _ _ Ha)). rewrite Hlen.
  erewrite bind_Ok by (apply liftEff_Ok; apply Hloop).
  erewrite bind_Ok by (by apply (modifyArea_Some _ _ a)).
  erewrite bind_Ok.
  2:{ apply getArea_Some. simpl. by apply list_lookup_insert_eq. }
  erewrite bind_Ok.
  2:{ eapply modifyArea_Some. simpl. by apply list_lookup_insert_eq. }
  simpl. rewrite list_insert_insert_eq.
  destruct (_minHeightTimeout a) as [[|id]|]; simpl.
  all: erewrite bind_Ok by reflexivity.
  all: erewrite bind_Ok by reflexivity.
  all: erewrite modifyArea_Some by (simpl; by apply list_lookup_insert_eq).
  all: simpl; rewrite list_insert_insert_eq.
  all: do 2 eexists; (split; [reflexivity|]); simpl.
  all: rewrite list_lookup_insert_eq by done.
  all: by repeat split.
Qed.





(** *** The reply handler *)

(** A notification never throws into the model: the signal catches what a
    slot throws. *)
Lemma notify_Ok w sender notifications :
  fst (for_each (emit sender) notifications w) = Ok ().
Proof.
  assert (∀ (l : list (nat * nat)) args w0,
            fst (for_each (invokeSlot sender args) l w0) = Ok ()) as Hslots.
  { induction l as [|conn l IH]; intros args w0; [done|].
    simpl. unfold mbind, StateErr_bind.
    destruct (invokeSlot sender args conn w0) as [[[]|e] w1] eqn:E.
    - apply IH.
    - exfalso. unfold invokeSlot, try_catch in E.
      destruct (bool_decide (conn.1 = sender)); [|done].
      by destruct (_onModelChanged conn.2 sender args w0) as [[|] ?]. }
  revert w. induction notifications as [|args l IH]; intros w; [done|].
  simpl. unfold mbind, StateErr_bind.
  destruct (emit sender args w) as [[[]|e] w1] eqn:E.
  - apply IH.
  - exfalso. unfold emit in E. specialize (Hslots (connections w) args w).
    by rewrite E in Hslots.
Qed.

Lemma call_model_run w m state method :
  models w !! m = Some state →
  ∃ w',
    call_model m method w = (Ok (), w') ∧
    models w' = <[m := (method state).1]> (models w) ∧
    promises w' = promises w.
Proof.
  intros Hm.
  pose proof (call_model_models w m state method Hm) as Hmodels.
  unfold call_model in *. rewrite Hm in *.
  destruct (method state) as [state' notifications]. simpl in *.
  pose proof (notify_Ok (set_models (<[m:=state']> (models w)) w) m
                notifications) as Hok.
  pose proof (keeps_notify promises (λ _ _, eq_refl) (λ _ _, eq_refl)
                (λ _ _, eq_refl) m notifications
                (set_models (<[m:=state']> (models w)) w)) as Hp.
  destruct (for_each (emit m) notifications
              (set_models (<[m:=state']> (models w)) w)) as [r w'].
  simpl in *. subst r. by exists w'.
Qed.

(** When the kernel delivers the reply of a request whose promise is
    pending, the promise is resolved with exactly that message. *)
Lemma onReply_resolves w future msg a state :
  areas w !! f_this future = Some a →
  models w !! model a = Some state →
  promises w !! f_promise future = Some None →
  ∃ w',
    onReply future msg w = (Ok (), w') ∧
    promises w' = <[f_promise future := Some msg]> (promises w).
Proof.
  intros Ha Hm Hp.
  assert (∃ w1, _onExecuteReply (f_this future) msg w = (Ok (), w1) ∧
                promises w1 = promises w) as (w1 & Hrun & Hkeep).
  { unfold _onExecuteReply.
    rewrite (bind_Ok _ _ _ _ _ (getArea_Some _ _ _ Ha)).
    destruct (length (c_payload (content msg)) =? 0); [by exists w|].
    destruct (filter _ _) as [|page pages]; [by exists w|].
    edestruct call_model_run as (w1 & -> & _ & Hk); [done|]. by exists w1. }
  unfold onReply. erewrite bind_Ok by done.
  unfold resolve. rewrite Hkeep, Hp. by eexists.
Qed.

End OutputAreaProperties.

(** ** Runs on the sample world *)

(** C1, on the code.  The specification says a 'set' notification replaces the
    k-th child without the stdin class and never disposes a stdin child.
    Here the children are a stdin panel followed by the output "a", and the
    model notifies 'set' at index 0 with the new value "ab".  [_setOutput]
    runs its loop zero times, disposes the child at position 0, the stdin
    panel, and inserts the new output there: the stdin child is gone and
    the output "a" it should have replaced is still shown. *)
Theorem setOutput_disposes_stdin_child :
  let w := Sample.stdin_then_output in
  let set :=
    mkChangedArgs "set" 0 0 [Sample.stream "a"] [Sample.stream "ab"] in
  let w' := Sample.after (_onModelChanged 0 0 set) w in
  Sample.describe <$> Sample.children_of w
  = [(true, [""; ""]); (false, ["a"])] ∧
  Area.skip_stdin (Sample.children_of w) 0 0 = Ok 0 ∧
  fst (_onModelChanged 0 0 set w) = Ok () ∧
  Sample.describe <$> Sample.children_of w'
  = [(false, ["ab"]); (false, ["a"])] ∧
  ∃ child,
    Sample.children_of w !! 0 = Some child ∧
    hasClass STDIN_CLASS child = true ∧
    trace w' = trace w ++ [Disposed child].
Proof.
  cbv zeta. split; [by vm_compute|]. split; [by vm_compute|].
  split; [by vm_compute|]. split; [by vm_compute|].
  eexists. split; [by vm_compute|]. split; by vm_compute.
Qed.

(** C2, on the code.  The specification says [clear], called directly or on a
    'remove' notification, removes every child.  With two children, the
    outputs "a" and "b", the loop of [clear] disposes "a" and then stops,
    because its counter has reached the length of the shortened list: the
    child "b" remains. *)
Theorem clear_leaves_a_child :
  let w := Sample.two_outputs in
  let remove :=
    mkChangedArgs "remove" 0 0 [Sample.display "a"; Sample.display "b"] [] in
  Sample.describe <$> Sample.children_of w
  = [(false, ["a"]); (false, ["b"])] ∧
  fst (clear 0 w) = Ok () ∧
  Sample.describe <$> Sample.children_of (Sample.after (clear 0) w)
  = [(false, ["b"])] ∧
  fst (_onModelChanged 0 0 remove w) = Ok () ∧
  Sample.describe
    <$> Sample.children_of (Sample.after (_onModelChanged 0 0 remove) w)
  = [(false, ["b"])].
Proof. cbv zeta. repeat split; by vm_compute. Qed.

(** C3, on the code.  The specification says [execute] clears the model and the
    children before it issues the request.  With four outputs shown,
    [execute] empties the model, whose 'remove' notification runs [clear]
    (four children become two), then runs [clear] itself (two become one),
    and issues the request while the output "d" is still a child.  The
    promise it returns is pending, and the reply handler of the request
    resolves it with the reply. *)
Theorem execute_leaves_a_child :
  let w := Sample.four_outputs in
  let w' := Sample.after (execute 0 "x" 7) w in
  Sample.describe <$> Sample.children_of w
  = [(false, ["a"]); (false, ["b"]); (false, ["c"]); (false, ["d"])] ∧
  models w = [[Sample.display "a"; Sample.display "b";
               Sample.display "c"; Sample.display "d"]] ∧
  fst (execute 0 "x" 7 w) = Ok 0 ∧
  models w' = [[]] ∧
  last (trace w') = Some (RequestExecute 7 (mkExecuteRequest "x" true)) ∧
  Sample.describe <$> Sample.children_of w' = [(false, ["d"])] ∧
  promises w' = [None] ∧
  futures w' = [mkFuture 0 7 0] ∧
  promises (Sample.after (onReply (mkFuture 0 7 0) Sample.reply_msg) w')
  = [Some Sample.reply_msg].
Proof. cbv zeta. repeat split; by vm_compute. Qed.

(** C8, as stated, fails while a flag change is waiting for its update.
    On a new output area [collapsed] is set to true, and before the update
    is delivered:
    - [fixedHeight] is set to a new value: the next update adds
      'jp-mod-collapsed' as well, a class other than the corresponding one;
    - or [collapsed] is set back to false, a new value again: the next
      update leaves 'jp-mod-collapsed' absent as it was, toggling nothing. *)
Lemma flag_setter_while_update_pending :
  let a := Area.set_collapsed true Sample.fresh_area in
  updateRequested a = true ∧
  Area.hasClass COLLAPSED_CLASS a = false ∧
  (true ≠ _fixedHeight a ∧
   COLLAPSED_CLASS ≠ FIXED_HEIGHT_CLASS ∧
   Area.hasClass COLLAPSED_CLASS
     (Area.deliverUpdateRequest (Area.set_fixedHeight true a)) = true) ∧
  (false ≠ _collapsed a ∧
   Area.hasClass COLLAPSED_CLASS
     (Area.deliverUpdateRequest (Area.set_collapsed false a)) = false) ∧
  ¬ (∀ (area : OutputArea) (value : bool) (c : string),
       value ≠ _fixedHeight area →
       c ≠ FIXED_HEIGHT_CLASS →
       Area.hasClass c
         (Area.deliverUpdateRequest (Area.set_fixedHeight value area))
       = Area.hasClass c area).
Proof.
  cbv zeta. split; [reflexivity|]. split; [reflexivity|].
  split; [split; [discriminate|split; [discriminate|reflexivity]]|].
  split; [split; [discriminate|reflexivity]|].
  intros Hclaim.
  assert (true ≠ _fixedHeight (Area.set_collapsed true Sample.fresh_area))
    as Hnew by discriminate.
  assert (COLLAPSED_CLASS ≠ FIXED_HEIGHT_CLASS) as Hother by discriminate.
  specialize (Hclaim _ true _ Hnew Hother).
  vm_compute in Hclaim. discriminate Hclaim.
Qed.

(** ** The theorems at work on concrete inputs *)

(** A stream message reaches the list model of the sample world. *)
Lemma onIOPub_maps_messages_sample :
  areas Sample.one_area !! 0 = Some Sample.fresh_area ∧
  models Sample.one_area !! model Sample.fresh_area = Some [] ∧
  msg_type (Sample.stream_msg "a")
    ∈ ["execute_result"; "display_data"; "stream"; "error"] ∧
  models (snd (_onIOPub 0 (Sample.stream_msg "a") Sample.one_area))
  = [[Sample.stream "a"]].
Proof.
  split; [reflexivity|]. split; [reflexivity|].
  assert (msg_type (Sample.stream_msg "a")
            ∈ ["execute_result"; "display_data"; "stream"; "error"]) as Hin.
  { simpl. do 2 apply list_elem_of_further. apply list_elem_of_here. }
  split; [exact Hin|].
  destruct (onIOPub_maps_messages Sample.one_area 0 Sample.fresh_area []
              (Sample.stream_msg "a") eq_refl eq_refl) as [Hadd _].
  destruct (Hadd Hin) as [_ ->]. reflexivity.
Defined.

(** An 'add' notification carrying index 0 reaches an area that shows "a"
    and "b": the new output "c" becomes the last child, not the first. *)
Lemma add_appends_output_sample :
  let args := mkChangedArgs "add" 0 0 [] [Sample.display "c"] in
  Sample.describe <$> Sample.children_of Sample.two_outputs
  = [(false, ["a"]); (false, ["b"])] ∧
  chg_type args = "add" ∧
  newIndex args < length (Sample.children_of Sample.two_outputs) ∧
  ∃ w',
    _onModelChanged 0 0 args Sample.two_outputs = (Ok (), w') ∧
    Sample.describe <$> Sample.children_of w'
    = [(false, ["a"]); (false, ["b"]); (false, ["c"])].
Proof.
  cbv zeta. split; [reflexivity|]. split; [reflexivity|].
  split; [vm_compute; lia|].
  edestruct (add_appends_output Sample.two_outputs 0 0
               (mkChangedArgs "add" 0 0 [] [Sample.display "c"]))
    as (w' & Hrun & Harea & _).
  - reflexivity.
  - reflexivity.
  - reflexivity.
  - exists w'. split; [exact Hrun|].
    unfold Sample.children_of. rewrite Harea. reflexivity.
Defined.

(** A bundle the sample renderer does not know gives the placeholder. *)
Lemma createOutput_placeholder_sample :
  let options :=
    mkOutputOptions Sample.rendermime (Some Sample.unrenderable) Gutter.new in
  render (oo_rendermime options) (oo_model options) = None ∧
  ContentFactory.createOutput options
  = ([ConsoleWarn "Did not find renderer for output mimebundle."],
     Ok (new_Widget, Gutter.new)).
Proof.
  cbv zeta. split; [reflexivity|].
  destruct (createOutput_placeholder_or_classed
              (mkOutputOptions Sample.rendermime (Some Sample.unrenderable)
                               Gutter.new)) as [Hnone _].
  destruct (Hnone eq_refl) as [-> _]. reflexivity.
Defined.

(** An execute result numbered 3: the rendered widget gets the class of
    its output type and the gutter reads Out[3]:. *)
Example createOutput_execute_result :
  ContentFactory.createOutput
    (mkOutputOptions Sample.rendermime (Some (Sample.result 3 "x"))
                     Gutter.new)
  = ([],
     Ok (mkWidget ["jp-RenderedText"; EXECUTE_CLASS] "x" [] PlainWidget,
         set_text "Out[3]:" Gutter.new)).
Proof. reflexivity. Qed.

(** A stream that is not named stdout is classed as stderr. *)
Example createOutput_stderr :
  ContentFactory.createOutput
    (mkOutputOptions Sample.rendermime
       (Some (mkOutput "stream" None "stderr" [("text/plain", "oops")]))
       Gutter.new)
  = ([],
     Ok (mkWidget ["jp-RenderedText"; STDERR_CLASS] "oops" [] PlainWidget,
         Gutter.new)).
Proof. reflexivity. Qed.

(** [Array(3).join('·')] is two dots. *)
Example Array_join_3 : Array_join 3 MIDDLE_DOT = [183%N; 183%N].
Proof. reflexivity. Qed.

(** With children [stdin; output; stdin; output] the positions resolved for
    the model indices 0 and 1 are 0, the first stdin child, and 2, the
    second one; with [output; stdin; stdin; output] index 1 resolves to
    1. *)
Example skip_stdin_positions :
  let stdin := addClass STDIN_CLASS new_Panel in
  let output := addClass OUTPUT_CLASS new_Panel in
  Area.skip_stdin [stdin; output; stdin; output] 0 0 = Ok 0 ∧
  Area.skip_stdin [stdin; output; stdin; output] 0 1 = Ok 2 ∧
  Area.skip_stdin [output; stdin; stdin; output] 0 1 = Ok 1 ∧
  Area.skip_stdin [output; output] 0 3 = Throw TypeError.
Proof. cbv zeta. repeat split; reflexivity. Qed.

(** Five children: [clear]'s loop disposes three and leaves two. *)
Example clear_loop_five :
  let child n := set_text n new_Panel in
  Area.clear_loop 0 (child <$> ["1"; "2"; "3"; "4"; "5"])
  = (Disposed <$> (child <$> ["1"; "2"; "3"]),
     Ok (child <$> ["4"; "5"])).
Proof. reflexivity. Qed.

(** A press at (10, 10) and a move to (15, 10): five pixels to the right
    start a drag. *)
Lemma drag_starts_at_threshold_sample :
  let this := mkGutter None None true false false in
  let down := mkEvent "mousedown" 0 0 10 10 false false in
  let move := mkEvent "mousemove" 0 0 15 10 false false in
  _drag this = None ∧
  button down = 0%Z ∧
  ∃ moved,
    Gutter._evtMousemove (Gutter._evtMousedown this down) move
    = Ok (moved, stopPropagation (preventDefault move)) ∧
    is_Some (_drag moved).
Proof.
  cbv zeta. split; [reflexivity|]. split; [reflexivity|].
  destruct (drag_starts_at_threshold
              (mkGutter None None true false false)
              (mkEvent "mousedown" 0 0 10 10 false false)
              (mkEvent "mousemove" 0 0 15 10 false false)
              eq_refl eq_refl) as (_ & moved & Hrun & Hiff & _).
  exists moved. split; [exact Hrun|].
  apply Hiff. left. unfold DRAG_THRESHOLD. simpl. lia.
Defined.

(** Collapsing a new output area adds 'jp-mod-collapsed'. *)
Lemma flag_setters_toggle_own_class_sample :
  classesReflectState Sample.fresh_area ∧
  true ≠ _collapsed Sample.fresh_area ∧
  area_classList
    (Area.deliverUpdateRequest (Area.set_collapsed true Sample.fresh_area))
  = [OUTPUT_AREA_CLASS; COLLAPSED_CLASS].
Proof.
  assert (classesReflectState Sample.fresh_area) as Hsync
    by (split; reflexivity).
  assert (true ≠ _collapsed Sample.fresh_area) as Hnew by discriminate.
  split; [exact Hsync|]. split; [exact Hnew|].
  destruct (flag_setters_toggle_own_class Sample.fresh_area true)
    as [Hcollapsed _].
  destruct (Hcollapsed Hsync Hnew) as [-> _]. reflexivity.
Defined.



(** * Further properties of the code *)

(** ** The gutter under a run of DOM events *)

Lemma deliverAll_app (this : Gutter) (events rest : list Event) (mid : Gutter) :
  GutterEvents.deliverAll this events = Ok mid →
  GutterEvents.deliverAll this (events ++ rest)
  = GutterEvents.deliverAll mid rest.
Proof.
  revert this. induction events as [|e events IH]; intros this Hrun; simpl in *.
  - by injection Hrun as ->.
  - destruct (GutterEvents.step this e) as [this'|err]; [|done].
    by apply IH.
Qed.

(** With no drag in progress an event does what the gutter's listeners
    do. *)
Lemma step_idle (this : Gutter) (event : Event) :
  _drag this = None →
  GutterEvents.step this event
  = match GutterEvents.deliver this event with
    | Ok (this', _) => Ok this'
    | Throw e => Throw e
    end.
Proof.
  intros Hdrag. unfold GutterEvents.step, GutterEvents.dragging.
  rewrite Hdrag. simpl. by destruct (GutterEvents.deliver this event) as [[]|].
Qed.

(** Without its document listeners and with no drag in progress a gutter
    is deaf to mouse moves and releases. *)
Lemma deliverAll_deaf (this : Gutter) (events : list Event) :
  _drag this = None →
  documentListensMouseup this = false →
  documentListensMousemove this = false →
  Forall (λ e, ev_type e = "mousemove" ∨ ev_type e = "mouseup") events →
  GutterEvents.deliverAll this events = Ok this.
Proof.
  intros Hdrag Hup Hmove Hall. induction Hall as [|e events He _ IH]; [done|].
  simpl. rewrite (step_idle _ _ Hdrag).
  unfold GutterEvents.deliver, GutterEvents.listens.
  rewrite Hup, Hmove. destruct He as [-> | ->]; simpl; apply IH.
Qed.

(** Moves near the press position leave a pressed gutter as it is. *)
Lemma deliverAll_near (this : Gutter) (press : Z * Z) (events : list Event) :
  _drag this = None →
  _dragData this = Some press →
  documentListensMousemove this = true →
  Forall (λ e, ev_type e = "mousemove" ∧ GutterEvents.near press e) events →
  GutterEvents.deliverAll this events = Ok this.
Proof.
  intros Hdrag Hdata Hmove Hall.
  induction Hall as [|e events [He [Hx Hy]] _ IH]; [done|].
  simpl. rewrite (step_idle _ _ Hdrag).
  unfold GutterEvents.deliver, GutterEvents.listens.
  rewrite Hmove, He. simpl. unfold Gutter.handleEvent. rewrite He. simpl.
  destruct press as [pressX pressY].
  by rewrite (mousemove_below_threshold _ _ _ _ Hdata Hx Hy).
Qed.

(** A gutter whose drag is in progress, its document listeners removed,
    is left alone by moves and by releases of other buttons; the first
    release of the left button ends the drag, and nothing that follows
    reaches the gutter. *)
Lemma deliverAll_dragging (this : Gutter) (events : list Event) :
  is_Some (_drag this) →
  documentListensMouseup this = false →
  documentListensMousemove this = false →
  Forall (λ e, ev_type e = "mousemove" ∨ ev_type e = "mouseup") events →
  GutterEvents.deliverAll this events
  = Ok (if existsb GutterEvents.endsDrag events then Gutter.dragEnded this
        else this).
Proof.
  intros Hdrag Hup Hmove Hall. induction Hall as [|e events He Hrest IH];
    [done|].
  cbn [GutterEvents.deliverAll existsb].
  assert (GutterEvents.step this e
          = Ok (if GutterEvents.endsDrag e then Gutter.dragEnded this
                else this)) as ->.
  { unfold GutterEvents.step, GutterEvents.dragging,
      GutterEvents.stoppedByDrag, GutterEvents.deliver, GutterEvents.listens.
    rewrite (bool_decide_eq_true_2 _ Hdrag), Hup, Hmove.
    destruct He as [He | He]; rewrite He; reflexivity. }
  destruct (GutterEvents.endsDrag e); simpl.
  - by apply deliverAll_deaf.
  - exact IH.
Qed.

(** X1.  An attached gutter with no drag in progress is pressed with the
    left button, the pointer then moves any number of times within the
    threshold and once beyond it: the drag is started by that move, at its
    position, carrying the mirror factory under the factory MIME type with
    the action 'copy', and the document listeners are removed.  The moves
    that follow and the releases of other buttons change nothing; the
    first release of the left button ends the drag, [_drag] is null again,
    and the gutter's listeners on the document stay removed. *)
Theorem drag_starts_at_first_far_move (this : Gutter) (down far : Event)
    (quiet rest : list Event) :
  _drag this = None →
  nodeListensMousedown this = true →
  ev_type down = "mousedown" →
  button down = 0%Z →
  Forall (λ e, ev_type e = "mousemove" ∧
               GutterEvents.near (clientX down, clientY down) e) quiet →
  ev_type far = "mousemove" →
  ¬ GutterEvents.near (clientX down, clientY down) far →
  Forall (λ e, ev_type e = "mousemove" ∨ ev_type e = "mouseup") rest →
  let started :=
    mkGutter
      (Some (mkDrag [(FACTORY_MIME, MirrorOfParentArea)] "copy" "copy"
                    (Some (clientX far, clientY far))))
      (Some (clientX down, clientY down)) true false false in
  GutterEvents.deliverAll this (down :: quiet ++ [far]) = Ok started ∧
  GutterEvents.deliverAll this (down :: quiet ++ far :: rest)
  = Ok (if existsb (λ e, (ev_type e === "mouseup") && (button e =? 0)%Z) rest
        then mkGutter None (Some (clientX down, clientY down))
                      true false false
        else started).
Proof.
  intros Hdrag Hnode Hdown Hbutton Hquiet Hfar Hnear Hrest started.
  set (pressed := mkGutter None (Some (clientX down, clientY down))
                           true true true).
  assert (GutterEvents.step this down = Ok pressed) as Hpress.
  { rewrite (step_idle _ _ Hdrag).
    unfold GutterEvents.deliver, GutterEvents.listens, Gutter.handleEvent,
      Gutter._evtMousedown.
    rewrite Hdown, Hnode, Hbutton. simpl. unfold pressed.
    by rewrite Hdrag. }
  assert (GutterEvents.step pressed far = Ok started) as Hstart.
  { rewrite step_idle by done.
    unfold GutterEvents.deliver, GutterEvents.listens, Gutter.handleEvent.
    rewrite Hfar. simpl.
    unfold GutterEvents.near in Hnear. simpl in Hnear.
    unfold Gutter._evtMousemove. simpl.
    destruct (Z.ltb_spec (Z.abs (clientX far - clientX down)) DRAG_THRESHOLD)
      as [Hx|Hx];
      [destruct (Z.ltb_spec (Z.abs (clientY far - clientY down))
                   DRAG_THRESHOLD) as [Hy|Hy]|];
      [tauto| |]; reflexivity. }
  assert (∀ after,
            Forall (λ e, ev_type e = "mousemove" ∨ ev_type e = "mouseup")
                   after →
            GutterEvents.deliverAll this (down :: quiet ++ far :: after)
            = Ok (if existsb GutterEvents.endsDrag after
                  then Gutter.dragEnded started else started)) as Hrun.
  { intros after Hafter.
    cbn [GutterEvents.deliverAll]. rewrite Hpress.
    rewrite (deliverAll_app _ _ _ pressed)
      by (by apply (deliverAll_near _ (clientX down, clientY down))).
    cbn [GutterEvents.deliverAll]. rewrite Hstart.
    by apply deliverAll_dragging. }
  split; [exact (Hrun [] (List.Forall_nil _))|].
  rewrite (Hrun rest Hrest). f_equal.
  assert (existsb GutterEvents.endsDrag rest
          = existsb (λ e, (ev_type e === "mouseup") && (button e =? 0)%Z) rest)
    as ->; [|reflexivity].
  clear Hrun. induction Hrest as [|e after He _ IH]; [done|].
  cbn [existsb]. rewrite IH. f_equal. unfold GutterEvents.endsDrag.
  destruct He as [-> | ->]; simpl; by rewrite ?orb_false_r.
Qed.

(** X2.  A left press followed by moves within the threshold and a release
    (of any button) starts no drag and removes the document listeners:
    whatever moves and releases follow, the gutter stays as the release
    left it, with no drag.  A press with another button changes nothing. *)
Theorem press_and_release_starts_no_drag (this : Gutter) (down up : Event)
    (quiet rest : list Event) :
  _drag this = None →
  nodeListensMousedown this = true →
  ev_type down = "mousedown" →
  ev_type up = "mouseup" →
  Forall (λ e, ev_type e = "mousemove" ∧
               GutterEvents.near (clientX down, clientY down) e) quiet →
  Forall (λ e, ev_type e = "mousemove" ∨ ev_type e = "mouseup") rest →
  (button down = 0%Z →
     GutterEvents.deliverAll this (down :: quiet ++ up :: rest)
     = Ok (mkGutter None (Some (clientX down, clientY down))
                    true false false)) ∧
  (button down ≠ 0%Z →
     GutterEvents.deliver this down = Ok (this, down)).
Proof.
  intros Hdrag Hnode Hdown Hup Hquiet Hrest. split.
  - intros Hbutton.
    set (pressed := mkGutter None (Some (clientX down, clientY down))
                             true true true).
    assert (GutterEvents.step this down = Ok pressed) as Hpress.
    { rewrite (step_idle _ _ Hdrag).
      unfold GutterEvents.deliver, GutterEvents.listens, Gutter.handleEvent,
        Gutter._evtMousedown.
      rewrite Hdown, Hnode, Hbutton. simpl. unfold pressed.
      by rewrite Hdrag. }
    cbn [GutterEvents.deliverAll]. rewrite Hpress.
    rewrite (deliverAll_app _ _ _ pressed)
      by (by apply (deliverAll_near _ (clientX down, clientY down))).
    cbn [GutterEvents.deliverAll]. rewrite step_idle by done.
    unfold GutterEvents.deliver at 1, GutterEvents.listens,
      Gutter.handleEvent, Gutter._evtMouseup.
    rewrite Hup. simpl. rewrite orb_true_r. by apply deliverAll_deaf.
  - intros Hbutton.
    unfold GutterEvents.deliver, GutterEvents.listens, Gutter.handleEvent,
      Gutter._evtMousedown.
    rewrite Hdown, Hnode. simpl.
    by rewrite (proj2 (Z.eqb_neq _ _) Hbutton).
Qed.

(** X3.  [dispose] forgets the press position but leaves the document
    listeners of a pressed gutter registered: the next mouse move the
    document delivers reads the position of a press that is gone and throws
    a TypeError. *)
Theorem mousemove_after_dispose_throws (this : Gutter) (down move : Event) :
  button down = 0%Z →
  ev_type move = "mousemove" →
  let disposed := Gutter.dispose (Gutter._evtMousedown this down) in
  documentListensMousemove disposed = true ∧
  GutterEvents.deliver disposed move = Throw TypeError.
Proof.
  intros Hbutton Hmove disposed.
  assert (documentListensMousemove disposed = true) as Hl.
  { unfold disposed, Gutter.dispose, Gutter._evtMousedown.
    by rewrite Hbutton. }
  split; [done|].
  unfold GutterEvents.deliver, GutterEvents.listens. rewrite Hl, Hmove.
  simpl. unfold Gutter.handleEvent. by rewrite Hmove.
Qed.

(** ** The stdin widget on other events *)


(** X4.  The stdin widget replies to the kernel on a keydown of Enter and on
    nothing else: for any other event nothing is sent and the widget is
    unchanged; a keydown of another key is stopped from propagating, an
    event that is no keydown is left as it is. *)
Theorem stdin_replies_only_on_enter (this : Stdin) (event : Event) :
  ev_type event ≠ "keydown" ∨ keyCode event ≠ 13%Z →
  Stdin.handleEvent this event
  = ([], Ok (this,
             if ev_type event === "keydown" then stopPropagation event
             else event)).
Proof.
  intros Hother. unfold Stdin.handleEvent.
  destruct (String.eqb_spec (ev_type event) "keydown") as [Hk|Hk]; [|done].
  destruct Hother as [?|Hkey]; [done|].
  by rewrite (proj2 (Z.eqb_neq _ _) Hkey).
Qed.


(** ** The content factory and the gutter prompt *)

(** X6.  When the renderer yields a widget for a model whose execution
    count is null or a safe integer, [createOutput] returns that widget
    with its text, children and implementation untouched and every class
    it had still on it, and sets the gutter's text for an execute result
    only: 'Out[n]:' with the execution count in decimal, 'Out[ ]:' when the
    count is null; for every other output type the gutter is returned as
    given. *)
Theorem createOutput_prompt_and_frame (options : IOutputOptions)
    (widget : Widget) (model : IOutput) :
  render (oo_rendermime options) (oo_model options) = Some widget →
  oo_model options = Some model →
  (∀ n, execution_count model = Some n → isSafeInteger n) →
  ∃ returned gutter,
    ContentFactory.createOutput options = ([], Ok (returned, gutter)) ∧
    text returned = text widget ∧
    children returned = children widget ∧
    impl returned = impl widget ∧
    (∀ c, hasClass c widget = true → hasClass c returned = true) ∧
    gutter
    = if output_type model === "execute_result" then
        set_text
          match execution_count model with
          | Some n => "Out[" +:+ pretty n +:+ "]:"
          | None => "Out[ ]:"
          end
          (oo_gutter options)
      else oo_gutter options.
Proof.
  intros Hr Hm _. unfold ContentFactory.createOutput. rewrite Hr, Hm.
  assert (∀ name c, hasClass c widget = true →
                    hasClass c (addClass name widget) = true) as Hkeep.
  { intros name c Hc. rewrite hasClass_addClass, Hc. apply orb_true_r. }
  destruct (output_type model === "execute_result").
  { do 2 eexists. split; [reflexivity|]. repeat split; [by apply Hkeep|].
    by destruct (execution_count model). }
  destruct (output_type model === "display_data").
  { do 2 eexists. split; [reflexivity|]. repeat split. by apply Hkeep. }
  destruct (output_type model === "stream").
  { destruct (name model === "stdout");
      do 2 eexists; (split; [reflexivity|]); repeat split; by apply Hkeep. }
  destruct (output_type model === "error").
  { do 2 eexists. split; [reflexivity|]. repeat split. by apply Hkeep. }
  do 2 eexists. split; [reflexivity|]. by repeat split.
Qed.

(** ** Update requests *)

(** X7.  [onUpdateRequest] makes the two state classes agree with the two
    flags whatever the class list was, leaves every other class and every
    other field as it is, and handling a second update request changes
    nothing. *)
Theorem onUpdateRequest_settles (a : OutputArea) :
  let a' := Area.onUpdateRequest a in
  Area.hasClass COLLAPSED_CLASS a' = _collapsed a ∧
  Area.hasClass FIXED_HEIGHT_CLASS a' = _fixedHeight a ∧
  (∀ c, c ≠ COLLAPSED_CLASS → c ≠ FIXED_HEIGHT_CLASS →
        Area.hasClass c a' = Area.hasClass c a) ∧
  a' = Area.with_classList (area_classList a') a ∧
  Area.onUpdateRequest a' = a'.
Proof.
  cbv zeta. pose proof (onUpdateRequest_reflects a) as [Hc Hf].
  split; [done|]. split; [done|]. split; [|split].
  - intros c H1 H2.
    unfold Area.hasClass, Area.onUpdateRequest, Area.toggleClass. simpl.
    rewrite !contains_toggle.
    by rewrite !bool_decide_eq_false_2.
  - done.
  - apply onUpdateRequest_settled, onUpdateRequest_reflects.
Qed.

(** ** The position a 'set' resolves, from the shape of the children *)

Lemma skip_stdin_error (ws : list Widget) (i index : nat) (e : Error) :
  Area.skip_stdin ws i index = Throw e → e = TypeError.
Proof.
  revert i index. induction ws as [|child ws IH]; intros i index; simpl.
  - destruct (i <? index); congruence.
  - destruct (i <? index); [apply IH | done].
Qed.


(** ** What a notification may change *)

Lemma sameButChildren_refl (a : OutputArea) : sameButChildren a a.
Proof. by repeat split. Qed.

Lemma sameButChildren_trans (a1 a2 a3 : OutputArea) :
  sameButChildren a1 a2 → sameButChildren a2 a3 → sameButChildren a1 a3.
Proof.
  unfold sameButChildren. intros H1 H2.
  destruct H1 as (?&?&?&?&?&?&?&?&?&?), H2 as (?&?&?&?&?&?&?&?&?&?).
  repeat split; congruence.
Qed.

Section MoreOutputAreaProperties.

Context {Model : Type} `{!IOutputAreaModel Model} `{!Layout}.
Implicit Types (w : World (Model := Model)).
Local Abbreviation M := (M (Model := Model)).
Local Abbreviation preserves := (preserves (Model := Model)).

Section Preserves.

Context (R : World (Model := Model) → World (Model := Model) → Prop).
Hypothesis R_refl : ∀ w, R w w.
Hypothesis R_trans : ∀ w1 w2 w3, R w1 w2 → R w2 w3 → R w1 w3.

Lemma preserves_mret {A : Type} (a : A) : preserves R (mret a : M A).
Proof. intros w. apply R_refl. Qed.

Lemma preserves_throw {A : Type} (e : Error) : preserves R (throw e : M A).
Proof. intros w. apply R_refl. Qed.

Lemma preserves_liftResult {A : Type} (r : Result A) :
  preserves R (liftResult r : M A).
Proof. destruct r; intros w; apply R_refl. Qed.

Lemma preserves_getArea this : preserves R (getArea this).
Proof. intros w. unfold getArea. destruct (areas w !! this); apply R_refl. Qed.

Lemma preserves_bind {A B : Type} (m : M A) (f : A → M B) :
  preserves R m → (∀ a, preserves R (f a)) → preserves R (m ≫= f).
Proof.
  intros Hm Hf w. unfold mbind, StateErr_bind.
  specialize (Hm w). destruct (m w) as [[a|e] w1]; simpl in *; [|done].
  eapply R_trans; [exact Hm | apply Hf].
Qed.

Lemma preserves_try_catch (m : M ()) (handler : Error → M ()) :
  preserves R m → (∀ e, preserves R (handler e)) →
  preserves R (try_catch m handler).
Proof.
  intros Hm Hh w. unfold try_catch.
  specialize (Hm w). destruct (m w) as [[a|e] w1]; simpl in *; [done|].
  eapply R_trans; [exact Hm | apply Hh].
Qed.

Lemma preserves_for_each {A : Type} (f : A → M ()) (l : list A) :
  Forall (λ x, preserves R (f x)) l → preserves R (for_each f l).
Proof.
  induction 1 as [|x l Hx _ IH]; simpl.
  - apply preserves_mret.
  - apply preserves_bind; [exact Hx | intros _; exact IH].
Qed.

End Preserves.

Lemma onlyChildrenChange_refl touched w : onlyChildrenChange touched w w.
Proof.
  repeat split. intros r a Ha. exists a.
  split; [done|]. split; [apply sameButChildren_refl|done].
Qed.

Lemma onlyChildrenChange_trans touched w1 w2 w3 :
  onlyChildrenChange touched w1 w2 → onlyChildrenChange touched w2 w3 →
  onlyChildrenChange touched w1 w3.
Proof.
  intros (?&?&?&?&?&H12) (?&?&?&?&?&H23).
  repeat split; try congruence.
  intros r a Ha. destruct (H12 r a Ha) as (a2 & Ha2 & Hs2 & Hu2).
  destruct (H23 r a2 Ha2) as (a3 & Ha3 & Hs3 & Hu3).
  exists a3. split; [done|]. split.
  - by eapply sameButChildren_trans.
  - intros Hn. rewrite Hu3, Hu2; done.
Qed.

(** A step that changes only the trace or the timers. *)
Lemma onlyChildrenChange_outside touched w w' :
  models w' = models w → areas w' = areas w →
  connections w' = connections w → promises w' = promises w →
  futures w' = futures w →
  onlyChildrenChange touched w w'.
Proof.
  intros ? Ha ? ? ?. repeat split; try congruence.
  intros r a Hr. exists a. rewrite Ha.
  split; [done|]. split; [apply sameButChildren_refl|done].
Qed.

(** A step that writes one touched area, keeping what must be kept. *)
Lemma onlyChildrenChange_area (touched : nat → Prop) w this a a' :
  touched this →
  areas w !! this = Some a →
  sameButChildren a a' →
  onlyChildrenChange touched w (set_areas (<[this := a']> (areas w)) w).
Proof.
  intros Ht Ha Hs. repeat split; simpl.
  - apply length_insert.
  - intros r b Hb. destruct (decide (r = this)) as [->|Hne].
    + exists a'. rewrite list_lookup_insert_eq by (by eapply lookup_lt_Some).
      replace b with a by congruence.
      split; [done|]. split; [exact Hs|]. intros Hn. by destruct Hn.
    + exists b. rewrite list_lookup_insert_ne by done.
      split; [done|]. split; [apply sameButChildren_refl|done].
Qed.

Section Touched.

Context (touched : nat → Prop).

Local Abbreviation keeps_rest := (preserves (onlyChildrenChange touched)).

Lemma rest_perform effects : keeps_rest (perform effects).
Proof. intros w. by apply onlyChildrenChange_outside. Qed.

Lemma rest_setTimeout this : keeps_rest (setTimeout this).
Proof. intros w. by apply onlyChildrenChange_outside. Qed.

Lemma rest_clearTimeout id : keeps_rest (clearTimeout id).
Proof. intros w. by apply onlyChildrenChange_outside. Qed.

Lemma rest_modifyArea this f :
  touched this → (∀ a, sameButChildren a (f a)) →
  keeps_rest (modifyArea this f).
Proof.
  intros Ht Hf w. unfold modifyArea, mbind, StateErr_bind, getArea.
  destruct (areas w !! this) as [a|] eqn:Ha; simpl.
  - by apply (onlyChildrenChange_area touched w this a).
  - apply onlyChildrenChange_refl.
Qed.

Lemma rest_bind {A B : Type} (m : M A) (f : A → M B) :
  keeps_rest m → (∀ a, keeps_rest (f a)) → keeps_rest (m ≫= f).
Proof.
  apply preserves_bind.
  intros w1 w2 w3. apply onlyChildrenChange_trans.
Qed.

Lemma rest_liftEff {A : Type} (c : Eff A) : keeps_rest (liftEff c).
Proof.
  unfold liftEff. apply rest_bind; [apply rest_perform|].
  intros _. apply preserves_liftResult, onlyChildrenChange_refl.
Qed.

Ltac rest_step :=
  first
    [ apply rest_modifyArea; [done | by intros; repeat split]
    | apply rest_perform | apply rest_setTimeout | apply rest_clearTimeout
    | apply rest_liftEff
    | apply rest_bind; [|intros ?]
    | apply preserves_getArea, onlyChildrenChange_refl
    | apply preserves_liftResult, onlyChildrenChange_refl
    | apply preserves_mret, onlyChildrenChange_refl
    | apply preserves_throw, onlyChildrenChange_refl
    | match goal with
      | |- preserves _ (if ?b then _ else _) => destruct b
      | |- preserves _ (match ?x with _ => _ end) => destruct x
      end ].

Lemma rest_clear this : touched this → keeps_rest (clear this).
Proof. intros Ht. unfold clear. repeat rest_step. Qed.

Lemma rest_insertOutput this index model :
  touched this → keeps_rest (_insertOutput this index model).
Proof. intros Ht. unfold _insertOutput. repeat rest_step. Qed.

Lemma rest_dispose_child this index :
  touched this → keeps_rest (dispose_child this index).
Proof.
  intros Ht w. unfold dispose_child, mbind, StateErr_bind, getArea.
  destruct (areas w !! this) as [a|] eqn:Ha; simpl;
    [|apply onlyChildrenChange_refl].
  destruct (widgets a !! index); simpl; [|apply onlyChildrenChange_refl].
  eapply onlyChildrenChange_trans.
  - by apply (onlyChildrenChange_outside touched w
                (set_trace (trace w ++ [Disposed w0]) w)).
  - by apply (onlyChildrenChange_area touched
                (set_trace (trace w ++ [Disposed w0]) w) this a).
Qed.

Lemma rest_setOutput this index model :
  touched this → keeps_rest (_setOutput this index model).
Proof.
  intros Ht. unfold _setOutput.
  repeat first [ apply rest_dispose_child; done
               | apply rest_insertOutput; done
               | rest_step ].
Qed.

Lemma rest_onModelChanged this sender args :
  touched this → keeps_rest (_onModelChanged this sender args).
Proof.
  intros Ht. unfold _onModelChanged.
  repeat first [ apply rest_clear; done
               | apply rest_setOutput; done
               | apply rest_insertOutput; done
               | rest_step ].
Qed.

Lemma rest_invokeSlot sender args conn :
  (conn.1 = sender → touched conn.2) →
  keeps_rest (invokeSlot sender args conn).
Proof.
  intros Ht. unfold invokeSlot. case_bool_decide as Hs.
  - apply preserves_try_catch.
    + intros w1 w2 w3. apply onlyChildrenChange_trans.
    + apply rest_onModelChanged. by apply Ht.
    + intros e. apply rest_perform.
  - apply preserves_mret, onlyChildrenChange_refl.
Qed.

Lemma rest_slots sender args (conns : list (nat * nat)) :
  (∀ r, (sender, r) ∈ conns → touched r) →
  keeps_rest (for_each (invokeSlot sender args) conns).
Proof.
  intros Ht. apply preserves_for_each.
  - apply onlyChildrenChange_refl.
  - intros w1 w2 w3. apply onlyChildrenChange_trans.
  - apply Forall_forall. intros [m r] Hin. apply rest_invokeSlot.
    simpl. intros ->. by apply Ht.
Qed.

End Touched.

Lemma emit_Ok w sender args : fst (emit sender args w) = Ok ().
Proof.
  pose proof (notify_Ok w sender [args]) as Hn. simpl in Hn.
  unfold mbind, StateErr_bind in Hn.
  by destruct (emit sender args w) as [[[]|e] w1].
Qed.

(** X8.  A change notification of a model never throws into the model and
    reaches only the output areas connected to that model: of those it may
    change the children, the minimum height and its timer, and nothing
    else (model, renderer and factory references, class list, title,
    flags, pending update); every other output area, every model, promise,
    future and connection is exactly as before, and no output area is
    created or lost. *)
Theorem notification_changes_only_children w sender args :
  fst (emit sender args w) = Ok () ∧
  onlyChildrenChange (λ r, (sender, r) ∈ connections w)
                     w (snd (emit sender args w)).
Proof.
  split; [apply emit_Ok|].
  unfold emit. by apply rest_slots.
Qed.


(** ** [clear], its minimum height and its timer *)

(** The world [clear] leaves when there is a child. *)
Lemma clear_world w this a :
  areas w !! this = Some a →
  widgets a ≠ [] →
  let k := (length (widgets a) + 1) / 2 in
  let shrunk := Area.with_widgets (drop k (widgets a)) a in
  let id := S (length (timeouts w)) in
  clear this w
  = (Ok (),
     mkWorld (models w)
       (<[this := Area.with_minHeightTimeout (Some id)
                    (Area.with_minHeight (rect_height shrunk +:+ "px")
                       shrunk)]> (areas w))
       (connections w) (promises w) (futures w)
       (match _minHeightTimeout a with
        | Some (S old) => <[old := None]> (timeouts w)
        | _ => timeouts w
        end ++ [Some this])
       (trace w ++ (Disposed <$> take k (widgets a)))).
Proof.
  intros Ha Hne k shrunk id.
  pose proof (lookup_lt_Some _ _ _ Ha) as Hlt.
  assert ((length (widgets a) =? 0) = false) as Hlen.
  { apply Nat.eqb_neq. destruct (widgets a); [done|simpl; lia]. }
  pose proof (clear_loop_spec (widgets a) 0) as Hloop.
  rewrite Nat.sub_0_r in Hloop. fold k in Hloop.
  unfold clear.
  rewrite (bind_Ok _ _ _ _ _ (getArea_Some _ _ _ Ha)). rewrite Hlen.
  erewrite bind_Ok by (apply liftEff_Ok; apply Hloop).
  erewrite bind_Ok by (by apply (modifyArea_Some _ _ a)).
  erewrite bind_Ok.
  2:{ apply getArea_Some. simpl. by apply list_lookup_insert_eq. }
  erewrite bind_Ok.
  2:{ eapply modifyArea_Some. simpl. by apply list_lookup_insert_eq. }
  simpl. rewrite list_insert_insert_eq.
  destruct (_minHeightTimeout a) as [[|old]|] eqn:Ht; simpl.
  all: erewrite bind_Ok by reflexivity.
  all: erewrite bind_Ok by reflexivity.
  all: erewrite modifyArea_Some by (simpl; by apply list_lookup_insert_eq).
  all: simpl; rewrite list_insert_insert_eq.
  all: unfold set_areas, Area.with_minHeightTimeout; simpl.
  all: by rewrite ?length_insert.
Qed.

(** X9.  [clear] never throws.  Of [n] children it disposes the first
    [(n + 1) / 2], in order, and keeps the others, so [n / 2] children
    remain: an area with at most one child is emptied, a larger one is not.
    Nothing else of the area changes but its minimum height and timer, and
    no other output area changes. *)
Theorem clear_disposes_first_half w this a :
  areas w !! this = Some a →
  ∃ w' a',
    clear this w = (Ok (), w') ∧
    areas w' !! this = Some a' ∧
    widgets a' = drop ((length (widgets a) + 1) / 2) (widgets a) ∧
    length (widgets a') = length (widgets a) / 2 ∧
    (widgets a' = [] ↔ length (widgets a) ≤ 1) ∧
    trace w'
    = trace w
      ++ (Disposed <$> take ((length (widgets a) + 1) / 2) (widgets a)) ∧
    sameButChildren a a' ∧
    ∀ r, r ≠ this → areas w' !! r = areas w !! r.
Proof.
  intros Ha.
  pose proof (lookup_lt_Some _ _ _ Ha) as Hlt.
  assert (length (drop ((length (widgets a) + 1) / 2) (widgets a))
          = length (widgets a) / 2) as Hhalf.
  { rewrite length_drop.
    pose proof (Nat.div_mod_eq (length (widgets a)) 2).
    pose proof (Nat.div_mod_eq (length (widgets a) + 1) 2).
    pose proof (Nat.mod_upper_bound (length (widgets a)) 2).
    pose proof (Nat.mod_upper_bound (length (widgets a) + 1) 2).
    lia. }
  assert (length (widgets a) / 2 = 0 ↔ length (widgets a) ≤ 1) as Hzero.
  { pose proof (Nat.div_mod_eq (length (widgets a)) 2).
    pose proof (Nat.mod_upper_bound (length (widgets a)) 2). lia. }
  destruct (widgets a) as [|child others] eqn:Hws.
  - exists w, a. rewrite (clear_empty _ _ _ Ha Hws). simpl.
    rewrite app_nil_r.
    split; [done|]. split; [done|]. split; [by rewrite Hws|].
    split; [by rewrite Hws|]. split; [rewrite Hws; simpl; split; [lia|done]|].
    split; [done|]. split; [apply sameButChildren_refl|done].
  - assert (widgets a ≠ []) as Hne by (by rewrite Hws).
    rewrite <- Hws in *.
    do 2 eexists. split; [by apply clear_world|]. cbn -[Nat.div].
    split; [by apply list_lookup_insert_eq|]. cbn -[Nat.div].
    split; [done|]. split; [done|]. split.
    { rewrite <- Hzero, <- Hhalf. split.
      - by intros ->.
      - by apply nil_length_inv. }
    split; [done|]. split; [by repeat split|].
    intros r Hr. by apply list_lookup_insert_ne.
Qed.

(** X10.  After [clear] has removed children, the area's minimum height is
    pinned to the height its node then has, the timer [clear] had set
    before (if any) is cleared and exactly one new timer is pending for the
    area, remembered in [_minHeightTimeout].  Whatever has happened to the
    world by the time that timer fires, the callback resets the minimum
    height to the empty string if the widget is not disposed then, and
    changes no output area if it has been disposed in between; nothing
    else changes but the timer, which is no longer pending. *)
Theorem clear_pins_height_until_timer w this a :
  areas w !! this = Some a →
  widgets a ≠ [] →
  ∃ w' a',
    let id := S (length (timeouts w)) in
    clear this w = (Ok (), w') ∧
    areas w' !! this = Some a' ∧
    style_minHeight a'
    = rect_height (Area.with_widgets (widgets a') a) +:+ "px" ∧
    _minHeightTimeout a' = Some id ∧
    isDisposed a' = isDisposed a ∧
    length (timeouts w') = id ∧
    timeouts w' !! length (timeouts w) = Some (Some this) ∧
    (∀ old, _minHeightTimeout a = Some (S old) →
            old < length (timeouts w) → timeouts w' !! old = Some None) ∧
    (∀ t, _minHeightTimeout a ≠ Some (S t) → t < length (timeouts w) →
          timeouts w' !! t = timeouts w !! t) ∧
    ∀ (later : World (Model := Model)) a1,
      timeouts later !! length (timeouts w) = Some (Some this) →
      areas later !! this = Some a1 →
      fireTimeout id later
      = (Ok (),
         set_areas
           (<[this := if isDisposed a1 then a1
                      else Area.with_minHeight "" a1]> (areas later))
           (set_timeouts (<[length (timeouts w) := None]> (timeouts later))
                         later)).
Proof.
  intros Ha Hne.
  pose proof (lookup_lt_Some _ _ _ Ha) as Hlt.
  set (T := match _minHeightTimeout a with
            | Some (S old) => <[old := None]> (timeouts w)
            | _ => timeouts w
            end).
  assert (length T = length (timeouts w)) as HT.
  { unfold T. destruct (_minHeightTimeout a) as [[|old]|];
      by rewrite ?length_insert. }
  do 2 eexists. cbv zeta.
  split; [by apply clear_world|]. fold T. cbn -[Nat.div].
  split; [by apply list_lookup_insert_eq|]. cbn -[Nat.div].
  split; [done|]. split; [done|]. split; [done|].
  split; [rewrite length_app, HT; simpl; lia|].
  split; [rewrite <- HT; by apply list_lookup_middle|].
  split.
  { intros old Hold Hlt'. unfold T. rewrite Hold.
    rewrite lookup_app_l by (by rewrite length_insert).
    by apply list_lookup_insert_eq. }
  split.
  { intros t Hnot Ht. rewrite lookup_app_l by lia. unfold T.
    destruct (_minHeightTimeout a) as [[|old]|]; try done.
    rewrite list_lookup_insert_ne; [done|]. congruence. }
  intros later a1 Hpending Ha1.
  unfold fireTimeout. cbn [Nat.ltb Nat.leb Nat.pred]. rewrite Hpending.
  unfold minHeightTimeout_fired.
  erewrite bind_Ok by (apply getArea_Some; exact Ha1).
  destruct (isDisposed a1).
  - rewrite (list_insert_id _ _ _ Ha1). by destruct later.
  - reflexivity.
Qed.

(** ** [_setOutput]: when it replaces the right child, and when it throws *)


(** X12.  A 'set' notification whose index is not below the number of
    children throws a TypeError out of the handler and leaves the world
    exactly as it was: no child is disposed and none is inserted.  The
    signal of the model catches the exception and logs it on the console. *)
Theorem set_beyond_children_throws w this sender args a :
  areas w !! this = Some a →
  chg_type args = "set" →
  length (widgets a) ≤ newIndex args →
  _onModelChanged this sender args w = (Throw TypeError, w) ∧
  invokeSlot sender args (sender, this) w
  = (Ok (), set_trace (trace w ++ [ConsoleError TypeError]) w).
Proof.
  intros Ha Ht Hlen.
  assert (_onModelChanged this sender args w = (Throw TypeError, w)) as Hrun.
  { unfold _onModelChanged. rewrite Ht. simpl. unfold _setOutput.
    rewrite (bind_Ok _ _ _ _ _ (getArea_Some _ _ _ Ha)).
    destruct (Area.skip_stdin (widgets a) 0 (newIndex args)) as [p|e]
      eqn:Hskip.
    - erewrite bind_Ok by reflexivity.
      apply skip_stdin_spec in Hskip as (Hp & _); [|lia].
      erewrite bind_Throw; [done|].
      unfold dispose_child.
      rewrite (bind_Ok _ _ _ _ _ (getArea_Some _ _ _ Ha)).
      by rewrite lookup_ge_None_2 by lia.
    - apply skip_stdin_error in Hskip as ->. by erewrite bind_Throw. }
  split; [done|].
  unfold invokeSlot, try_catch. simpl.
  rewrite bool_decide_eq_true_2 by done. by rewrite Hrun.
Qed.

(** ** The handlers of a kernel request *)

(** X13.  The stdin handler acts on 'input_request' messages only.  For
    one, a panel bearing the child and stdin classes, holding the factory's
    gutter and the factory's stdin widget made for the message's prompt and
    password flag and for the kernel of the request, becomes the last child
    of the output area; the model, the trace and all else are untouched.
    Any other stdin message changes nothing. *)
Theorem onStdin_appends_stdin_panel w future msg a :
  areas w !! f_this future = Some a →
  let factory := contentFactory a in
  let panel :=
    mkWidget [CHILD_CLASS; STDIN_CLASS] ""
      [addClass GUTTER_CLASS (createGutter factory);
       addClass STDIN_CLASS
         (createStdin factory
            (mkStdinOptions (c_prompt (content msg))
               (c_password (content msg)) (f_kernel future)))]
      PanelWidget in
  (msg_type msg = "input_request" →
     onStdin future msg w
     = (Ok (),
        set_areas
          (<[f_this future := Area.with_widgets (widgets a ++ [panel]) a]>
             (areas w)) w) ∧
     ¬ isOutput panel) ∧
  (msg_type msg ≠ "input_request" → onStdin future msg w = (Ok (), w)).
Proof.
  intros Ha factory panel. split.
  - intros Ht. unfold onStdin. rewrite Ht. simpl. split; [|done].
    unfold _onInputRequest.
    rewrite (bind_Ok _ _ _ _ _ (getArea_Some _ _ _ Ha)).
    by rewrite (modifyArea_Some _ _ a).
  - intros Ht. unfold onStdin.
    by rewrite (proj2 (String.eqb_neq _ _) Ht).
Qed.

(** X14.  The reply handler turns the first payload entry whose source is
    'page' into a display_data output with that entry's data and adds it to
    the model; further pages are ignored.  A reply with no payload, or with
    no page in it, changes nothing. *)
Theorem onExecuteReply_adds_first_page w this msg a state :
  areas w !! this = Some a →
  models w !! model a = Some state →
  let pages := filter (λ i, i.1 = "page") (c_payload (content msg)) in
  (pages = [] → _onExecuteReply this msg w = (Ok (), w)) ∧
  (∀ page more,
     pages = page :: more →
     fst (_onExecuteReply this msg w) = Ok () ∧
     models (snd (_onExecuteReply this msg w))
     = <[model a := (model_add (mkOutput "display_data" None "" page.2)
                               state).1]> (models w)).
Proof.
  intros Ha Hm pages. unfold _onExecuteReply.
  rewrite (bind_Ok _ _ _ _ _ (getArea_Some _ _ _ Ha)).
  split.
  - intros Hp. destruct (length (c_payload (content msg)) =? 0); [done|].
    fold pages. by rewrite Hp.
  - intros page more Hp.
    destruct (c_payload (content msg)) as [|entry payload] eqn:Hpay;
      [done|].
    cbn [length Nat.eqb]. fold pages. rewrite Hp.
    edestruct (call_model_run w (model a) state) as (w' & -> & Hmodels & _);
      [done|].
    by split.
Qed.

(** ** [execute], from the request to the reply *)

Lemma clear_Ok w this a :
  areas w !! this = Some a → fst (clear this w) = Ok ().
Proof.
  intros Ha. destruct (widgets a) as [|child others] eqn:Hws.
  - by rewrite (clear_empty _ _ a).
  - rewrite (clear_world _ _ a); [done|done|]. by rewrite Hws.
Qed.

Lemma slots_Ok w sender args (conns : list (nat * nat)) :
  fst (for_each (invokeSlot sender args) conns w) = Ok ().
Proof.
  revert w. induction conns as [|conn conns IH]; intros w; [done|].
  simpl. unfold mbind, StateErr_bind.
  destruct (invokeSlot sender args conn w) as [[[]|e] w1] eqn:E.
  - apply IH.
  - exfalso. unfold invokeSlot, try_catch in E.
    destruct (bool_decide (conn.1 = sender)); [|done].
    by destruct (_onModelChanged conn.2 sender args w) as [[|] ?].
Qed.

(** The notifications of one call of the model, over the output areas
    connected to it. *)
Lemma notify_frame w m notifications w0 :
  connections w0 = connections w →
  fst (for_each (emit m) notifications w0) = Ok () ∧
  onlyChildrenChange (λ r, (m, r) ∈ connections w) w0
    (snd (for_each (emit m) notifications w0)).
Proof.
  revert w0. induction notifications as [|args l IH]; intros w0 Hc.
  - split; [done|]. apply onlyChildrenChange_refl.
  - simpl. unfold mbind, StateErr_bind.
    pose proof (emit_Ok w0 m args) as Hok.
    assert (onlyChildrenChange (λ r, (m, r) ∈ connections w) w0
              (snd (emit m args w0))) as Hstep.
    { unfold emit. apply rest_slots. intros r. by rewrite Hc. }
    destruct (emit m args w0) as [[[]|e] w1]; [|done]. simpl in *.
    destruct (IH w1) as [Hok' Hrest].
    { destruct Hstep as (_ & -> & _). done. }
    split; [done|]. by eapply onlyChildrenChange_trans.
Qed.

(** X15.  [execute] on an output area whose model exists never throws.  It
    calls the model's [clear] without waiting, then issues one execute
    request to the kernel, the last thing it does, with the code given and
    [stop_on_error] set; it returns a new promise, pending, and registers
    the handlers of the request.  It creates or drops no output area and
    leaves the connections and all of the area but its children, minimum
    height and timer as they were.  When the kernel then delivers the
    reply, the promise is resolved with exactly that message. *)
Theorem execute_requests_and_resolves w this code kernel a state :
  areas w !! this = Some a →
  models w !! model a = Some state →
  ∃ w' a',
    let promise := length (promises w) in
    execute this code kernel w = (Ok promise, w') ∧
    models w' = <[model a := (model_clear false state).1]> (models w) ∧
    last (trace w') = Some (RequestExecute kernel (mkExecuteRequest code true)) ∧
    promises w' = promises w ++ [None] ∧
    futures w' = futures w ++ [mkFuture this kernel promise] ∧
    connections w' = connections w ∧
    length (areas w') = length (areas w) ∧
    areas w' !! this = Some a' ∧
    sameButChildren a a' ∧
    ∀ reply, ∃ w'',
      onReply (mkFuture this kernel promise) reply w' = (Ok (), w'') ∧
      promises w'' = promises w ++ [Some reply].
Proof.
  intros Ha Hm.
  (* the model call *)
  set (w0 := set_models (<[model a := (model_clear false state).1]>
                           (models w)) w).
  destruct (model_clear false state) as [state' notifications] eqn:Hclear.
  destruct (notify_frame w (model a) notifications w0 eq_refl)
    as [Hok1 Hrel1].
  assert (call_model (model a) (model_clear false) w
          = for_each (emit (model a)) notifications w0) as Hcall.
  { unfold call_model. by rewrite Hm, Hclear. }
  destruct (for_each (emit (model a)) notifications w0) as [r1 w1] eqn:Hrun1.
  simpl in Hok1, Hrel1. subst r1.
  destruct Hrel1 as (Hm1 & Hc1 & Hp1 & Hf1 & Hl1 & Ha1).
  destruct (Ha1 this a Ha) as (a1 & Harea1 & Hsame1 & _).
  (* clear *)
  pose proof (clear_Ok w1 this a1 Harea1) as Hok2.
  pose proof (rest_clear (λ r, r = this) this eq_refl w1)
    as (Hm2 & Hc2 & Hp2 & Hf2 & Hl2 & Ha2).
  destruct (clear this w1) as [r2 w2] eqn:Hrun2. simpl in *. subst r2.
  destruct (Ha2 this a1 Harea1) as (a2 & Harea2 & Hsame2 & _).
  exists (set_futures
            (futures w2 ++ [mkFuture this kernel (length (promises w2))])
            (set_trace
               (trace w2 ++ [RequestExecute kernel (mkExecuteRequest code true)])
               (set_promises (promises w2 ++ [None]) w2))), a2.
  cbv zeta.
  assert (promises w2 = promises w) as Hp by congruence.
  split.
  { unfold execute.
    rewrite (bind_Ok _ _ _ _ _ (getArea_Some _ _ _ Ha)).
    erewrite bind_Ok by (rewrite Hcall; reflexivity).
    erewrite bind_Ok by exact Hrun2.
    erewrite bind_Ok by reflexivity.
    erewrite bind_Ok by reflexivity.
    by rewrite Hp. }
  simpl.
  split; [congruence|]. split; [by rewrite last_snoc|].
  split; [congruence|]. split; [congruence|]. split; [congruence|].
  split; [congruence|]. split; [done|].
  split; [by eapply sameButChildren_trans|].
  intros reply.
  set (w3 := set_futures _ _).
  assert (model a2 = model a) as Hmodel.
  { destruct Hsame1 as (E1 & _), Hsame2 as (E2 & _). congruence. }
  destruct (onReply_resolves w3 (mkFuture this kernel (length (promises w)))
              reply a2 state') as (w'' & Hrun & Hres).
  - done.
  - unfold w3. simpl. rewrite Hmodel, Hm2, Hm1. unfold w0. simpl.
    apply list_lookup_insert_eq. by eapply lookup_lt_Some.
  - unfold w3. simpl. rewrite Hp. by apply list_lookup_middle.
  - exists w''. split; [done|]. rewrite Hres. unfold w3. simpl.
    rewrite Hp. by rewrite insert_last.
Qed.

(** ** A mirrored output area and the model *)

Lemma for_each_app {A : Type} (f : A → M ()) (l1 l2 : list A) w :
  for_each f (l1 ++ l2) w = (for_each f l1 ≫= λ _, for_each f l2) w.
Proof.
  revert w. induction l1 as [|x l1 IH]; intros w; simpl.
  - done.
  - unfold mbind, StateErr_bind.
    destruct (f x w) as [[[]|e] w1]; [|done]. apply IH.
Qed.

(** X16.  A mirrored output area starts with no children, whatever the
    original shows: the outputs already in the model are not rendered into
    it.  It is connected to the model, so the next 'add' notification of
    the model gives it its first child, the panel of the new value. *)
Theorem mirror_starts_empty_and_follows w this args a
    effects result gutter' :
  areas w !! this = Some a →
  (∀ m r, (m, r) ∈ connections w → r < length (areas w)) →
  chg_type args = "add" →
  createOutput (contentFactory a)
    (mkOutputOptions (rendermime a) (head (newValues args))
       (addClass GUTTER_CLASS (createGutter (contentFactory a))))
  = (effects, Ok (result, gutter')) →
  ∃ w1 w2 a1 a2,
    let new := length (areas w) in
    mirror this w = (Ok new, w1) ∧
    areas w1 !! new = Some a1 ∧
    widgets a1 = [] ∧
    emit (model a) args w1 = (Ok (), w2) ∧
    areas w2 !! new = Some a2 ∧
    widgets a2 = [output_panel result].
Proof.
  intros Ha Hconns Ht Hc.
  pose proof (lookup_lt_Some _ _ _ Ha) as Hlt.
  set (new := length (areas w)).
  set (a1 := mkOutputArea (model a) (rendermime a) (contentFactory a)
               [OUTPUT_AREA_CLASS; MIRRORED_OUTPUT_AREA_CLASS]
               "Mirrored Output" true [] "" false false false false None).
  set (w1 := set_connections (connections w ++ [(model a, new)])
               (set_areas (areas w ++ [a1]) w)).
  assert (areas w1 !! new = Some a1) as Hnew by (by apply list_lookup_middle).
  (* the slots connected before the mirror leave the mirror alone *)
  pose proof (slots_Ok w1 (model a) args (connections w)) as Hok.
  pose proof (rest_slots (λ r, r < new) (model a) args (connections w)
                (λ r Hin, Hconns _ _ Hin) w1) as (_ & Hcm & _ & _ & _ & Ham).
  destruct (for_each (invokeSlot (model a) args) (connections w) w1)
    as [r wm] eqn:Hrun. simpl in *. subst r.
  destruct (Ham new a1 Hnew) as (am & Hmid & _ & Hsame).
  rewrite (Hsame (Nat.lt_irrefl _)) in Hmid. clear Hsame am.
  exists w1.
  eexists _, a1, _. cbv zeta.
  split; [by apply mirror_run|].
  split; [done|]. split; [done|]. split.
  { unfold emit. cbn [connections w1 set_connections].
    rewrite for_each_app. unfold mbind at 1, StateErr_bind at 1.
    rewrite Hrun. simpl. unfold mbind at 1, StateErr_bind at 1.
    unfold invokeSlot, try_catch. simpl.
    rewrite bool_decide_eq_true_2 by done.
    unfold _onModelChanged. rewrite Ht. simpl.
    rewrite (bind_Ok _ _ _ _ _ (getArea_Some _ _ _ Hmid)).
    rewrite (insertOutput_run wm new a1 _ _ effects result gutter' Hmid Hc).
    reflexivity. }
  simpl. split.
  - apply list_lookup_insert_eq. by eapply lookup_lt_Some.
  - done.
Qed.

End MoreOutputAreaProperties.

(** ** The further properties at work on concrete inputs *)

(** A press at (10, 10), a move to (12, 11), a move to (10, 16) that starts
    the drag, a far move, and the release that ends the drag. *)
Lemma drag_starts_at_first_far_move_sample :
  GutterEvents.deliverAll (mkGutter None None true false false)
    [mkEvent "mousedown" 0 0 10 10 false false;
     mkEvent "mousemove" 0 0 12 11 false false;
     mkEvent "mousemove" 0 0 10 16 false false]
  = Ok (mkGutter
          (Some (mkDrag [(FACTORY_MIME, MirrorOfParentArea)] "copy" "copy"
                        (Some (10, 16)%Z)))
          (Some (10, 10)%Z) true false false) ∧
  GutterEvents.deliverAll (mkGutter None None true false false)
    [mkEvent "mousedown" 0 0 10 10 false false;
     mkEvent "mousemove" 0 0 12 11 false false;
     mkEvent "mousemove" 0 0 10 16 false false;
     mkEvent "mousemove" 0 0 90 90 false false;
     mkEvent "mouseup" 0 0 90 90 false false]
  = Ok (mkGutter None (Some (10, 10)%Z) true false false).
Proof.
  apply (drag_starts_at_first_far_move
           (mkGutter None None true false false)
           (mkEvent "mousedown" 0 0 10 10 false false)
           (mkEvent "mousemove" 0 0 10 16 false false)
           [mkEvent "mousemove" 0 0 12 11 false false]
           [mkEvent "mousemove" 0 0 90 90 false false;
            mkEvent "mouseup" 0 0 90 90 false false]);
    try reflexivity.
  - repeat constructor; unfold DRAG_THRESHOLD; simpl; lia.
  - unfold GutterEvents.near, DRAG_THRESHOLD. simpl. lia.
  - repeat (apply List.Forall_cons; [first [by left | by right]|]).
    apply List.Forall_nil.
Defined.

(** A press at (10, 10), a small move and a release, then a far move. *)
Lemma press_and_release_starts_no_drag_sample :
  GutterEvents.deliverAll (mkGutter None None true false false)
    [mkEvent "mousedown" 0 0 10 10 false false;
     mkEvent "mousemove" 0 0 12 11 false false;
     mkEvent "mouseup" 0 0 12 11 false false;
     mkEvent "mousemove" 0 0 90 90 false false]
  = Ok (mkGutter None (Some (10, 10)%Z) true false false).
Proof.
  apply (press_and_release_starts_no_drag
           (mkGutter None None true false false)
           (mkEvent "mousedown" 0 0 10 10 false false)
           (mkEvent "mouseup" 0 0 12 11 false false)
           [mkEvent "mousemove" 0 0 12 11 false false]
           [mkEvent "mousemove" 0 0 90 90 false false]);
    try reflexivity.
  - repeat constructor; unfold DRAG_THRESHOLD; simpl; lia.
  - repeat (apply List.Forall_cons; [first [by left | by right]|]).
    apply List.Forall_nil.
Defined.

(** A pressed gutter is disposed; the pointer moves. *)
Lemma mousemove_after_dispose_throws_sample :
  GutterEvents.deliver
    (Gutter.dispose
       (Gutter._evtMousedown (mkGutter None None true false false)
          (mkEvent "mousedown" 0 0 10 10 false false)))
    (mkEvent "mousemove" 0 0 11 10 false false)
  = Throw TypeError.
Proof.
  apply (mousemove_after_dispose_throws
           (mkGutter None None true false false)
           (mkEvent "mousedown" 0 0 10 10 false false)
           (mkEvent "mousemove" 0 0 11 10 false false) eq_refl eq_refl).
Defined.

(** The key 'a' (code 65) sends nothing. *)
Lemma stdin_replies_only_on_enter_sample :
  Stdin.handleEvent
    (Stdin.type_value [112%N] (Stdin.new (mkStdinOptions [] false 7)))
    (mkEvent "keydown" 65 0 0 0 false false)
  = ([], Ok (Stdin.type_value [112%N]
               (Stdin.new (mkStdinOptions [] false 7)),
             mkEvent "keydown" 65 0 0 0 false true)).
Proof.
  apply (stdin_replies_only_on_enter
           (Stdin.type_value [112%N] (Stdin.new (mkStdinOptions [] false 7)))
           (mkEvent "keydown" 65 0 0 0 false false)).
  right. discriminate.
Defined.


(** The execute result numbered 12. *)
Lemma createOutput_prompt_and_frame_sample :
  ∃ returned,
    ContentFactory.createOutput
      (mkOutputOptions Sample.rendermime
         (Some (mkOutput "execute_result" (Some 12%Z) ""
                         [("text/plain", "x")]))
         Gutter.new)
    = ([], Ok (returned, set_text "Out[12]:" Gutter.new)).
Proof.
  destruct (createOutput_prompt_and_frame
              (mkOutputOptions Sample.rendermime
                 (Some (mkOutput "execute_result" (Some 12%Z) ""
                                 [("text/plain", "x")]))
                 Gutter.new)
              _ _ eq_refl eq_refl)
    as (returned & gutter & Hrun & _ & _ & _ & _ & Hgutter).
  { intros n Hn. injection Hn as <-. unfold isSafeInteger. lia. }
  exists returned. rewrite Hrun, Hgutter. reflexivity.
Defined.

(** [clear] on the two outputs of the sample world. *)
Lemma clear_disposes_first_half_sample :
  ∃ w' a',
    clear 0 Sample.two_outputs = (Ok (), w') ∧
    areas w' !! 0 = Some a' ∧
    length (widgets a') = 1.
Proof.
  destruct (clear_disposes_first_half Sample.two_outputs 0 _ eq_refl)
    as (w' & a' & Hrun & Harea & _ & Hlen & _).
  exists w', a'. split; [exact Hrun|]. split; [exact Harea | exact Hlen].
Defined.

(** [clear] on the two outputs of the sample world pins the height; the
    timer resets it when it fires, unless the area has been disposed in
    between. *)
Lemma clear_pins_height_until_timer_sample :
  ∃ w' a',
    clear 0 Sample.two_outputs = (Ok (), w') ∧
    areas w' !! 0 = Some a' ∧
    style_minHeight a' = "0px" ∧
    _minHeightTimeout a' = Some 1 ∧
    style_minHeight <$> areas (snd (fireTimeout 1 w')) !! 0 = Some "" ∧
    style_minHeight
      <$> areas (snd (fireTimeout 1
                        (set_areas (<[0 := disposed a']> (areas w')) w'))) !! 0
    = Some "0px".
Proof.
  destruct (clear_pins_height_until_timer Sample.two_outputs 0 _ eq_refl)
    as (w' & a' & Hrun & Harea & Hheight & Htimer & Hflag & _ & Hpending & _
        & _ & Hfire).
  { discriminate. }
  exists w', a'. split; [exact Hrun|]. split; [exact Harea|].
  split; [exact Hheight|]. split; [exact Htimer|].
  pose proof (lookup_lt_Some _ _ _ Harea) as Hlt.
  change (length (timeouts Sample.two_outputs)) with 0 in Hfire, Hpending.
  split.
  - rewrite (Hfire w' a' Hpending Harea). simpl.
    rewrite list_lookup_insert_eq by exact Hlt.
    rewrite Hflag. reflexivity.
  - rewrite (Hfire (set_areas (<[0 := disposed a']> (areas w')) w')
               (disposed a')).
    + simpl. rewrite list_lookup_insert_eq by (by rewrite length_insert).
      simpl. by rewrite Hheight.
    + exact Hpending.
    + simpl. by apply list_lookup_insert_eq.
Defined.


(** A 'set' at index 2 when there are two children. *)
Lemma set_beyond_children_throws_sample :
  let args := mkChangedArgs "set" 2 2 [] [Sample.display "c"] in
  _onModelChanged 0 0 args Sample.two_outputs
  = (Throw TypeError, Sample.two_outputs).
Proof.
  cbv zeta.
  destruct (set_beyond_children_throws Sample.two_outputs 0 0
              (mkChangedArgs "set" 2 2 [] [Sample.display "c"]) _
              eq_refl eq_refl) as [Hrun _].
  { simpl. lia. }
  exact Hrun.
Defined.

(** An input request on the sample world. *)
Lemma onStdin_appends_stdin_panel_sample :
  ∃ w',
    onStdin (mkFuture 0 7 0) Sample.input_request Sample.one_area
    = (Ok (), w') ∧
    Sample.describe <$> Sample.children_of w' = [(true, [""; ""])].
Proof.
  destruct (onStdin_appends_stdin_panel Sample.one_area (mkFuture 0 7 0)
              Sample.input_request _ eq_refl) as [Hrequest _].
  destruct (Hrequest eq_refl) as [Hrun _].
  eexists. split; [exact Hrun|]. reflexivity.
Defined.

(** A reply with two pages adds the first one to the list model. *)
Lemma onExecuteReply_adds_first_page_sample :
  let reply :=
    mkMessage "execute_reply"
      (mkContent None "" [] false [] false
         [("set_next_input", []);
          ("page", [("text/plain", "help")]);
          ("page", [("text/plain", "more")])]) in
  models (snd (_onExecuteReply 0 reply Sample.one_area))
  = [[mkOutput "display_data" None "" [("text/plain", "help")]]].
Proof.
  cbv zeta.
  destruct (onExecuteReply_adds_first_page Sample.one_area 0
              (mkMessage "execute_reply"
                 (mkContent None "" [] false [] false
                    [("set_next_input", []);
                     ("page", [("text/plain", "help")]);
                     ("page", [("text/plain", "more")])]))
              _ [] eq_refl eq_refl) as [_ Hpage].
  destruct (Hpage _ _ eq_refl) as [_ ->]. reflexivity.
Defined.

(** [execute] on the sample world with four outputs, then the reply. *)
Lemma execute_requests_and_resolves_sample :
  ∃ w' w'',
    execute 0 "x" 7 Sample.four_outputs = (Ok 0, w') ∧
    models w' = [[]] ∧
    onReply (mkFuture 0 7 0) Sample.reply_msg w' = (Ok (), w'') ∧
    promises w'' = [Some Sample.reply_msg].
Proof.
  destruct (execute_requests_and_resolves Sample.four_outputs 0 "x" 7 _ _
              eq_refl eq_refl)
    as (w' & a' & Hrun & Hmodels & _ & _ & _ & _ & _ & _ & _ & Hreply).
  destruct (Hreply Sample.reply_msg) as (w'' & Hrun' & Hres).
  exists w', w''. split; [exact Hrun|]. split; [exact Hmodels|].
  split; [exact Hrun' | exact Hres].
Defined.

(** The sample area shows "a" and "b"; its mirror shows nothing until the
    model notifies the output "c". *)
Lemma mirror_starts_empty_and_follows_sample :
  let args := mkChangedArgs "add" 0 2 [] [Sample.display "c"] in
  ∃ w1 w2 a1 a2,
    mirror 0 Sample.two_outputs = (Ok 1, w1) ∧
    areas w1 !! 1 = Some a1 ∧
    widgets a1 = [] ∧
    emit 0 args w1 = (Ok (), w2) ∧
    areas w2 !! 1 = Some a2 ∧
    Sample.describe <$> widgets a2 = [(false, ["c"])].
Proof.
  cbv zeta.
  edestruct (mirror_starts_empty_and_follows Sample.two_outputs 0
               (mkChangedArgs "add" 0 2 [] [Sample.display "c"]))
    as (w1 & w2 & a1 & a2 & Hmirror & Ha1 & Hempty & Hemit & Ha2 & Hws).
  - reflexivity.
  - intros m r Hin. vm_compute in Hin.
    apply list_elem_of_singleton in Hin. injection Hin as -> ->.
    simpl. lia.
  - reflexivity.
  - reflexivity.
  - exists w1, w2, a1, a2. split; [exact Hmirror|]. split; [exact Ha1|].
    split; [exact Hempty|]. split; [exact Hemit|]. split; [exact Ha2|].
    rewrite Hws. reflexivity.
Defined.
